(** * xprocess: a supervisor for external helper processes

    A shallow embedding of [xprocess.py].  Python objects become records,
    the file system below the control root, the operating system's process
    table and the logger become one explicit [world] that every operation
    threads, and a Python exception becomes the [Raise] branch of a result.

    The names [abc] and [functools], which the module uses without importing
    them, are read as the standard modules of those names. *)

From Stdlib Require Import ZArith QArith Lqa Lia Bool List.
From Stdlib Require Import Ascii String DecimalString DecimalZ DecimalPos.
From stdpp Require Import base option list gmap strings.
Import ListNotations.

Local Open Scope string_scope.
Local Open Scope Z_scope.

(* ===================================================================== *)
(** ** Python values, exceptions and built-ins *)
(* ===================================================================== *)

Module Py.

(** The values that flow through the module's control decisions. *)
Inductive value :=
| VNone
| VBool (b : bool)
| VInt (z : Z)
| VStr (s : string).

(** Truth value testing, as [if x:] and [not x] perform it. *)
Definition truthy (v : value) : bool :=
  match v with
  | VNone => false
  | VBool b => b
  | VInt z => negb (z =? 0)
  | VStr s => negb (String.eqb s "")
  end.

Inductive psutil_error := NoSuchProcess | AccessDenied | TimeoutExpired.

Inductive exn :=
| ValueError (literal : string)
| TypeError (what : string)
| NameError (name : string)
| AttributeError (attr : string)
| RuntimeError (msg : string)
| EnvironmentError (what : string)
| PsutilError (e : psutil_error).

Inductive result (A : Type) :=
| Ok (a : A)
| Raise (e : exn).
Arguments Ok {A} a.
Arguments Raise {A} e.

(** [str.strip()] on both ends, over the ASCII white space. *)
Definition is_space (c : ascii) : bool :=
  let n := nat_of_ascii c in
  (Nat.eqb n 32 || (Nat.leb 9 n && Nat.leb n 13))%bool.

Fixpoint lstrip (s : string) : string :=
  match s with
  | String c s' => if is_space c then lstrip s' else s
  | EmptyString => EmptyString
  end.

Fixpoint rstrip (s : string) : string :=
  match s with
  | String c s' =>
      let r := rstrip s' in
      if (is_space c && String.eqb r "")%bool then EmptyString else String c r
  | EmptyString => EmptyString
  end.

Definition strip (s : string) : string := rstrip (lstrip s).

(** [int(s)] for a string: surrounding white space is dropped, one sign
    is allowed, and at least one decimal digit must follow.  Digit
    grouping with underscores, which later interpreters accept, is left
    out. *)
Definition int (s : string) : option Z :=
  match strip s with
  | String "+" d => option_map (fun u => Z.of_int (Decimal.Pos u)) (NilZero.uint_of_string d)
  | String "-" d => option_map (fun u => Z.of_int (Decimal.Neg u)) (NilZero.uint_of_string d)
  | d => option_map (fun u => Z.of_int (Decimal.Pos u)) (NilZero.uint_of_string d)
  end.

(** [str(n)] for an integer. *)
Definition str (z : Z) : string := NilZero.string_of_int (Z.to_int z).

(** [str(x)] for an optional integer: [None] prints as its name. *)
Definition str_opt (p : option Z) : string :=
  match p with
  | Some z => str z
  | None => "None"
  end.

(** [sep.join(parts)]. *)
Fixpoint join (sep : string) (parts : list string) : string :=
  match parts with
  | [] => ""
  | [p] => p
  | p :: rest => p ++ sep ++ join sep rest
  end.

(** *** Binding the arguments of a call

    A call supplies positional and keyword arguments; each parameter must
    end up with exactly one value. *)
Section Binding.
Context {V : Type}.

Fixpoint bind_positional (params : list string) (args : list V)
  : result (list (string * V) * list string) :=
  match args, params with
  | [], _ => Ok ([], params)
  | _ :: _, [] => Raise (TypeError "too many positional arguments")
  | a :: args', p :: params' =>
      match bind_positional params' args' with
      | Ok (bound, free) => Ok ((p, a) :: bound, free)
      | Raise e => Raise e
      end
  end.

Definition bound_in (p : string) (bound : list (string * V)) : bool :=
  existsb (fun b => String.eqb (fst b) p) bound.

Fixpoint bind_keywords (all : list string) (bound : list (string * V))
  (kw : list (string * V)) : result (list (string * V)) :=
  match kw with
  | [] => Ok bound
  | (k, v) :: kw' =>
      if bound_in k bound
      then Raise (TypeError ("got multiple values for argument '" ++ k ++ "'"))
      else if existsb (String.eqb k) all
           then bind_keywords all (bound ++ [(k, v)])%list kw'
           else Raise (TypeError ("got an unexpected keyword argument '" ++ k ++ "'"))
  end.

Definition bind_call (params : list string) (args : list V)
  (kw : list (string * V)) : result (list (string * V)) :=
  match bind_positional params args with
  | Raise e => Raise e
  | Ok (bound, _) =>
      match bind_keywords params bound kw with
      | Raise e => Raise e
      | Ok bound' =>
          if forallb (fun p => bound_in p bound') params
          then Ok bound'
          else Raise (TypeError "missing required argument")
      end
  end.
End Binding.

End Py.

Import Py.

(* ===================================================================== *)
(** ** The world the supervisor acts on *)
(* ===================================================================== *)

(** A process as [psutil] lets the supervisor see it.  How it answers a
    signal is fixed per process: it exits some time after the signal, it
    carries on, or the system refuses to deliver the signal. *)
Inductive response :=
| Exits (delay : Q)
| Ignores
| Refuses.

Record process := Process_ {
  running : bool;                 (* what [is_running()] answers *)
  on_terminate : response;
  on_kill : response;
  exit_at : option Q              (* when a delivered signal makes it exit *)
}.

Inductive signal := SIGTERM | SIGKILL.

(** How [Popen] is asked to set the child up, by platform. *)
Inductive popen_kwargs :=
| HiddenWindow                    (* win32: startupinfo with SW_HIDE *)
| OwnProcessGroup.                (* elsewhere: close_fds, preexec_fn=os.setpgrp *)

Definition environ := option (list (string * string)).

Inductive event :=
| Signalled (time : Q) (pid : Z) (s : signal)
| Spawned (args : list string) (cwd : string) (env : environ)
    (kw : popen_kwargs) (pid : Z)
| LogDebug (fmt : string) (args : list value).

(** An open file on a control directory's log: the directory's name and
    the read offset. *)
Record handle := Handle { h_name : string; h_pos : nat }.

Record world := World {
  platform : string;                 (* sys.platform *)
  entries : list string;             (* rootdir.listdir(), by base name *)
  pidfiles : gmap string string;     (* <root>/<name>/xprocess.PID *)
  logs : gmap string string;         (* <root>/<name>/xprocess.log *)
  table : gmap Z process;            (* the system's process table, as stored *)
  now : Q;                           (* elapsed time, in the units of timeouts *)
  children : list (Z * process);     (* what the system has in store to create *)
  trace : list event;                (* most recent first *)
  extlogfiles : gmap string handle;  (* config._extlogfiles *)
  terminal : list string             (* lines written to [tw], oldest first *)
}.

(** A process id is never negative.  The processes the system has are the
    entries of its table under such an id, and the children it will create
    next are those in store with such an id. *)
Definition processes (w : world) : gmap Z process :=
  filter (fun e => Is_true (0 <=? fst e)) (table w).

Definition supply (w : world) : list (Z * process) :=
  List.filter (fun c => 0 <=? fst c) (children w).

Definition set_entries (f : list string -> list string) (w : world) : world :=
  World (platform w) (f (entries w)) (pidfiles w) (logs w) (table w) (now w)
    (children w) (trace w) (extlogfiles w) (terminal w).
Definition set_pidfiles (f : gmap string string -> gmap string string) (w : world) : world :=
  World (platform w) (entries w) (f (pidfiles w)) (logs w) (table w) (now w)
    (children w) (trace w) (extlogfiles w) (terminal w).
Definition set_logs (f : gmap string string -> gmap string string) (w : world) : world :=
  World (platform w) (entries w) (pidfiles w) (f (logs w)) (table w) (now w)
    (children w) (trace w) (extlogfiles w) (terminal w).
Definition set_table (f : gmap Z process -> gmap Z process) (w : world) : world :=
  World (platform w) (entries w) (pidfiles w) (logs w) (f (table w)) (now w)
    (children w) (trace w) (extlogfiles w) (terminal w).
Definition set_now (f : Q -> Q) (w : world) : world :=
  World (platform w) (entries w) (pidfiles w) (logs w) (table w) (f (now w))
    (children w) (trace w) (extlogfiles w) (terminal w).
Definition set_children (f : list (Z * process) -> list (Z * process)) (w : world) : world :=
  World (platform w) (entries w) (pidfiles w) (logs w) (table w) (now w)
    (f (children w)) (trace w) (extlogfiles w) (terminal w).
Definition set_trace (f : list event -> list event) (w : world) : world :=
  World (platform w) (entries w) (pidfiles w) (logs w) (table w) (now w)
    (children w) (f (trace w)) (extlogfiles w) (terminal w).
Definition set_extlogfiles (f : gmap string handle -> gmap string handle) (w : world) : world :=
  World (platform w) (entries w) (pidfiles w) (logs w) (table w) (now w)
    (children w) (trace w) (f (extlogfiles w)) (terminal w).
Definition set_terminal (f : list string -> list string) (w : world) : world :=
  World (platform w) (entries w) (pidfiles w) (logs w) (table w) (now w)
    (children w) (trace w) (extlogfiles w) (f (terminal w)).

(** *** Computations: state passing with exceptions

    An exception leaves the world as it was when it was raised. *)
Definition M (A : Type) : Type := world -> result A * world.

Definition ret {A} (a : A) : M A := fun w => (Ok a, w).
Definition raise {A} (e : exn) : M A := fun w => (Raise e, w).
Definition bind {A B} (m : M A) (k : A -> M B) : M B :=
  fun w =>
    match m w with
    | (Ok a, w') => k a w'
    | (Raise e, w') => (Raise e, w')
    end.
Definition modify (f : world -> world) : M unit := fun w => (Ok tt, f w).

(** [try: m  except <class>: h], the class given by its membership test. *)
Definition try_except {A} (m : M A) (caught : exn -> bool) (h : M A) : M A :=
  fun w =>
    match m w with
    | (Raise e, w') => if caught e then h w' else (Raise e, w')
    | r => r
    end.

Declare Scope py_scope.
Delimit Scope py_scope with py.
Notation "x <~ m ;; k" := (bind m (fun x => k))
  (at level 100, m at next level, right associativity) : py_scope.
Notation "m ;;; k" := (bind m (fun _ => k))
  (at level 100, right associativity) : py_scope.
Local Open Scope py_scope.

(** The exception classes the source names in [except] clauses. *)
Definition is_psutil_Error (e : exn) : bool :=
  match e with PsutilError _ => true | _ => false end.
Definition is_NoSuchProcess (e : exn) : bool :=
  match e with PsutilError NoSuchProcess => true | _ => false end.
Definition is_TimeoutExpired (e : exn) : bool :=
  match e with PsutilError TimeoutExpired => true | _ => false end.

(* ===================================================================== *)
(** ** The process primitives the module calls through [psutil] *)
(* ===================================================================== *)

Module psutil.

(** [psutil.Process(pid)]: a handle on a process of the table.  A negative
    pid is refused with [ValueError] before the table is looked at. *)
Definition Process (pid : Z) : M Z :=
  fun w =>
    if pid <? 0 then (Raise (ValueError "pid must be a positive integer"), w)
    else
      match table w !! pid with
      | Some _ => (Ok pid, w)
      | None => (Raise (PsutilError NoSuchProcess), w)
      end.

Definition is_running (proc : Z) : M bool :=
  fun w =>
    (Ok (match table w !! proc with
         | Some p => running p
         | None => false
         end), w).

Definition earliest (e : option Q) (t : Q) : Q :=
  match e with
  | Some e' => if Qle_bool e' t then e' else t
  | None => t
  end.

Definition send (s : signal) (proc : Z) : M unit :=
  fun w =>
    match table w !! proc with
    | None => (Raise (PsutilError NoSuchProcess), w)
    | Some p =>
        match (match s with SIGTERM => on_terminate p | SIGKILL => on_kill p end) with
        | Refuses => (Raise (PsutilError AccessDenied), w)
        | Ignores => (Ok tt, set_trace (cons (Signalled (now w) proc s)) w)
        | Exits d =>
            let p' := Process_ (running p) (on_terminate p) (on_kill p)
                        (Some (earliest (exit_at p) (now w + d)%Q)) in
            (Ok tt, set_trace (cons (Signalled (now w) proc s))
                      (set_table (insert proc p') w))
        end
    end.

(** [proc.terminate()] and [proc.kill()]. *)
Definition terminate : Z -> M unit := send SIGTERM.
Definition kill : Z -> M unit := send SIGKILL.

(** [proc.wait(timeout=t)]: returns as soon as the process is gone, and
    raises [TimeoutExpired] once [t] has passed with the process still
    there. *)
Definition wait (timeout : Q) (proc : Z) : M unit :=
  fun w =>
    let expire := (Raise (PsutilError TimeoutExpired),
                   set_now (fun t => (t + timeout)%Q) w) in
    match table w !! proc with
    | None => (Ok tt, w)
    | Some p =>
        match exit_at p with
        | Some e =>
            if Qle_bool e (now w + timeout)%Q
            then (Ok tt, set_now (fun t => if Qle_bool t e then e else t)
                           (set_table (delete proc) w))
            else expire
        | None => expire
        end
    end.

End psutil.

(* ===================================================================== *)
(** ** Files below the control root *)
(* ===================================================================== *)

(** [path.join(part)] *)
Definition path_join (path part : string) : string := path ++ "/" ++ part.

(** [path.ensure(name, dir=1)]: the directory is created unless it is there. *)
Definition ensure_dir (name : string) : M unit :=
  modify (set_entries (fun l => if existsb (String.eqb name) l then l else (l ++ [name])%list)).

(** [pidpath.check()] and [pidpath.read()], fused: the content if the file
    exists. *)
Definition read_pidfile (name : string) : M (option string) :=
  fun w => (Ok (pidfiles w !! name), w).

(** [pidpath.write(content)] *)
Definition write_pidfile (name content : string) : M unit :=
  modify (set_pidfiles (insert name content)).

(** [open(str(logpath), "wb", 0)]: the log is created, or emptied. *)
Definition open_wb (name : string) : M unit :=
  modify (set_logs (insert name "")).

(** [logpath.open()]: a reader at offset 0; the file has to exist. *)
Definition open_r (name : string) : M handle :=
  fun w =>
    match logs w !! name with
    | Some _ => (Ok (Handle name 0), w)
    | None => (Raise (EnvironmentError "ENOENT"), w)
    end.

(** [f.seek(0, 2)]: to the end of the file as it is now. *)
Definition seek_end (f : handle) : M handle :=
  fun w =>
    (Ok (Handle (h_name f) (String.length (default "" (logs w !! h_name f)))), w).

(** What is left to read through a handle, given the file's content. *)
Fixpoint drop_string (n : nat) (s : string) : string :=
  match n, s with
  | S n', String _ s' => drop_string n' s'
  | _, _ => s
  end.

Definition unread (f : handle) (content : string) : string :=
  drop_string (h_pos f) content.

(** [f.readline()] on a file with the given content: up to and including
    the next newline, or what is left; the handle moves past it. *)
Fixpoint take_line (s : string) : string :=
  match s with
  | EmptyString => EmptyString
  | String c s' =>
      if Ascii.eqb c "010" then String c EmptyString else String c (take_line s')
  end.

Definition readline (f : handle) (content : string) : string * handle :=
  let line := take_line (unread f content) in
  (line, Handle (h_name f) (h_pos f + String.length line)).

Definition debug (fmt : string) (args : list value) : M unit :=
  modify (set_trace (cons (LogDebug fmt args))).

Definition tw_line (s : string) : M unit :=
  modify (set_terminal (fun l => (l ++ [s])%list)).

(** [Popen(args, cwd=..., stdout=..., stderr=STDOUT, **kwargs)]: the system
    creates its next child, or has none to give. *)
Definition Popen (args : list string) (cwd : string) (env : environ) : M Z :=
  fun w =>
    let kw := if String.eqb (platform w) "win32" then HiddenWindow else OwnProcessGroup in
    match supply w with
    | [] => (Raise (EnvironmentError "Popen"), w)
    | (pid, p) :: rest =>
        (Ok pid, set_trace (cons (Spawned args cwd env kw pid))
                   (set_table (insert pid p)
                      (set_children (fun _ => rest) w)))
    end.

(* ===================================================================== *)
(** ** class XProcessInfo *)
(* ===================================================================== *)

Module XProcessInfo.

Record t := Make {
  name : string;
  controldir : string;
  logpath : string;
  pidpath : string;
  pid : option Z
}.

Definition with_pid (self : t) (p : option Z) : t :=
  Make (name self) (controldir self) (logpath self) (pidpath self) p.

Definition __init__ (path name : string) : M t :=
  ensure_dir name ;;;
  let controldir := path_join path name in
  let logpath := path_join controldir "xprocess.log" in
  let pidpath := path_join controldir "xprocess.PID" in
  content <~ read_pidfile name ;;
  match content with
  | Some c =>
      match int c with
      | Some z => ret (Make name controldir logpath pidpath (Some z))
      | None => raise (ValueError c)
      end
  | None => ret (Make name controldir logpath pidpath None)
  end.

Definition isrunning (self : t) : M bool :=
  match pid self with
  | None => ret false
  | Some p =>
      proc <~ try_except (h <~ psutil.Process p ;; ret (Some h))
                is_NoSuchProcess (ret None) ;;
      match proc with
      | None => ret false
      | Some h => psutil.is_running h
      end
  end.

(** The value [self.pid] as the truth test of [not self.pid] sees it. *)
Definition pid_value (self : t) : value :=
  match pid self with
  | Some z => VInt z
  | None => VNone
  end.

(** Return codes: 0 no work to do, 1 terminated, -1 failed to terminate. *)
Definition terminate (self : t) : M Z :=
  nothing <~ (if negb (truthy (pid_value self)) then ret true
              else r <~ isrunning self ;; ret (negb r)) ;;
  if (nothing : bool) then ret 0 else
  let timeout := 20%Q in
  try_except
    (proc <~ psutil.Process (default 0 (pid self)) ;;
     psutil.terminate proc ;;;
     try_except (psutil.wait (timeout / 2)%Q proc)
       is_TimeoutExpired
       (psutil.kill proc ;;; psutil.wait (timeout / 2)%Q proc) ;;;
     ret 1)
    is_psutil_Error
    (ret (-1)).

(** The deprecated alias; the warning it issues is not part of the world. *)
Definition kill (self : t) : M Z := terminate self.

End XProcessInfo.

(* ===================================================================== *)
(** ** class ProcessStarter and class CompatStarter *)
(* ===================================================================== *)

(** [str(x)] on the values an argument list may hold. *)
Definition str_value (v : value) : string :=
  match v with
  | VNone => "None"
  | VBool true => "True"
  | VBool false => "False"
  | VInt z => str z
  | VStr s => s
  end.

(** What [starter.wait] is bound to on an instance. *)
Inductive wait_method :=
| Inherited                                 (* ProcessStarter.wait *)
| Overridden (f : handle -> world -> result value * handle)
                                            (* a subclass's own wait; it may read on *)
| Lambda (wait : world -> result value)     (* lambda lines: wait() *)
| PartialExpect (pattern : value).          (* functools.partial(self.expect, pattern=wait) *)

(** A starter instance.  [args] is absent when a subclass leaves the
    abstract property as it is; [own_get_lines] is the [get_lines] of a
    subclass that defines one, which reads the file and returns or raises;
    [log] is an attribute no constructor of the module sets; [process], the
    supervisor an instance is built with, is never read and is left out. *)
Record starter := Starter {
  control_dir : string;
  args : option (list value);
  env : environ;
  wait : wait_method;
  own_get_lines : option (handle -> world -> result value);
  log : bool
}.

Module ProcessStarter.

(** What a subclass defines on top of the base class. *)
Record class := Class {
  cls_args : option (list value);
  cls_env : environ;
  cls_wait : option (handle -> world -> result value * handle);
  cls_get_lines : option (handle -> world -> result value)
}.

Definition __init__ (c : class) (control_dir : string) : starter :=
  Starter control_dir (cls_args c) (cls_env c)
    (match cls_wait c with Some f => Overridden f | None => Inherited end)
    (cls_get_lines c)
    false.

(** The loop reads from [f], a name bound nowhere. *)
Definition get_lines (log_file : handle) : M unit :=
  raise (NameError "f").

(** [self.get_lines(log_file)] is looked up on the instance: a subclass's
    own [get_lines] if it has one, the one above otherwise.  What it
    returns goes to a local name, and [wait] returns nothing. *)
Definition wait (self : starter) (log_file : handle) : M value :=
  (match own_get_lines self with
   | Some g =>
       fun w =>
         match g log_file w with
         | Ok _ => (Ok tt, w)
         | Raise e => (Raise e, w)
         end
   | None => get_lines log_file
   end) ;;;
  ret VNone.

End ProcessStarter.

Module CompatStarter.

(** The first component of what a prepare function returns. *)
Inductive wait_arg :=
| Callable (f : world -> result value)
| NotCallable (pattern : value).

Definition prepare_func := string -> wait_arg * list value * environ.

(** The callable [prep] makes of its [wait] argument. *)
Definition wait_for (wait : wait_arg) : wait_method :=
  match wait with
  | Callable f => Lambda f
  | NotCallable p => PartialExpect p
  end.

(** [prep] assigns [self.wait], [self.env] and then [self.args].  On the
    class, [args] is the abstract property inherited from [ProcessStarter],
    which has no setter: the third assignment raises, and [prep] returns
    for no argument. *)
Definition prep (control_dir : string) (wait : wait_arg) (args : list value)
  (env : environ) : result starter :=
  let wait := wait_for wait in
  Raise (AttributeError "args").

(** [prep] comes first; [ProcessStarter.__init__] is not reached. *)
Definition __init__ (preparefunc : prepare_func) (control_dir : string) : result starter :=
  let '(wait, args, env) := preparefunc control_dir in
  prep control_dir wait args env.

(** [wrap] gives the constructor with its first argument fixed. *)
Definition wrap (prepare_func : prepare_func) : string -> result starter :=
  __init__ prepare_func.

(** [def expect(self, pattern, lines): pass] *)
Definition expect_params : list string := ["pattern"; "lines"].
Definition expect (self : starter) (bound : list (string * (value + handle))) : value :=
  VNone.

Section Pattern.
(** [std.re.search(pattern, line)], as a truth value. *)
Variable re_search : value -> string -> bool.

(** The loop of [_checkpattern].  [f] is the file seen through its
    successive [readline()] results, the empty string once they are
    used up; [None] says the loop is still running when the step
    budget is spent. *)
Fixpoint _checkpattern (steps : nat) (self : starter) (f : list string)
  (pattern : value) (count : Z) : M (option bool) :=
  match steps with
  | O => ret None
  | S steps' =>
      let line := hd "" f in
      (if String.eqb line "" then modify (set_now (fun t => Qplus t (1 # 10)))
       else ret tt) ;;;
      (if log self then debug line [] else raise (AttributeError "log")) ;;;
      if re_search pattern line then ret (Some true)
      else
        let count := count - 1 in
        if count <? 0 then ret (Some false)
        else _checkpattern steps' self (tl f) pattern count
  end.
End Pattern.

End CompatStarter.

(** [starter.wait(f)], by what the attribute is bound to. *)
Definition call_wait (self : starter) (f : handle) : M (value * handle) :=
  match wait self with
  | Inherited => v <~ ProcessStarter.wait self f ;; ret (v, f)
  | Overridden g =>
      fun w =>
        match g f w with
        | (Ok v, f') => (Ok (v, f'), w)
        | (Raise e, _) => (Raise e, w)
        end
  | Lambda g =>
      fun w =>
        match g w with
        | Ok v => (Ok (v, f), w)
        | Raise e => (Raise e, w)
        end
  | PartialExpect p =>
      match bind_call CompatStarter.expect_params [inr f] [("pattern", inl p)] with
      | Ok bound => ret (CompatStarter.expect self bound, f)
      | Raise e => raise e
      end
  end.

(** What a caller may hand to [ensure] as [preparefunc]. *)
Inductive preparefunc :=
| Subclass (c : ProcessStarter.class)       (* a class derived from ProcessStarter *)
| OtherClass                                (* a class that is not *)
| Function (f : CompatStarter.prepare_func). (* a plain function *)

(* ===================================================================== *)
(** ** class XProcess *)
(* ===================================================================== *)

Module XProcess.

(** The supervisor; its [config] registry and its [log] live in the world. *)
Record t := Make { rootdir : string }.

Definition getinfo (self : t) (name : string) : M XProcessInfo.t :=
  XProcessInfo.__init__ (rootdir self) name.

(** [issubclass(preparefunc, ProcessStarter)], the wrapping of anything
    else, and the instantiation [preparefunc(controldir, self)]. *)
Definition instantiate (p : preparefunc) (controldir : string) : M starter :=
  match p with
  | Subclass c => ret (ProcessStarter.__init__ c controldir)
  | OtherClass => raise (AttributeError "wrap")
  | Function _ => raise (TypeError "issubclass() arg 1 must be a class")
  end.

(** [[str(x) for x in starter.args]] *)
Definition starter_args (s : starter) : M (list string) :=
  match args s with
  | Some l => ret (map str_value l)
  | None => raise (TypeError "'NoneType' object is not iterable")
  end.

(** The branch [if restart:] of [ensure]: the starter and the info with
    the child's pid. *)
Definition launch (self : t) (name : string) (p : preparefunc)
  (info : XProcessInfo.t) : M (starter * XProcessInfo.t) :=
  (match XProcessInfo.pid info with
   | Some _ => XProcessInfo.terminate info ;;; ret tt
   | None => ret tt
   end) ;;;
  ensure_dir name ;;;
  let controldir := XProcessInfo.controldir info in
  starter <~ instantiate p controldir ;;
  args <~ starter_args starter ;;
  debug "%s$ %s" [VStr controldir; VStr (join " " args)] ;;;
  open_wb name ;;;
  pid <~ Popen args controldir (env starter) ;;
  let info := XProcessInfo.with_pid info (Some pid) in
  write_pidfile name (str pid) ;;;
  debug "process %r started pid=%s" [VStr name; VInt pid] ;;;
  ret (starter, info).

Definition ensure (self : t) (name : string) (p : preparefunc) (restart : bool)
  : M (option Z * string) :=
  info <~ getinfo self name ;;
  restart <~ (if negb restart
              then r <~ XProcessInfo.isrunning info ;; ret (negb r)
              else ret restart) ;;
  started <~ (if (restart : bool)
              then r <~ launch self name p info ;; ret (Some (fst r), snd r)
              else ret (None, info)) ;;
  let info := snd started in
  f <~ open_r name ;;
  f <~ (match fst started with
        | None => seek_end f
        | Some starter =>
            r <~ call_wait starter f ;;
            if truthy (fst r)
            then debug "%s process startup detected" [VStr name] ;;; ret (snd r)
            else raise (RuntimeError ("Could not start process " ++ name))
        end) ;;
  modify (set_extlogfiles (insert name f)) ;;;
  getinfo self name ;;;
  ret (XProcessInfo.pid info, XProcessInfo.logpath info).

(** The generator of [_infos]: the listing is taken once, each info is
    built when the consumer asks for it. *)
Definition _infos (self : t) : M (list (M XProcessInfo.t)) :=
  fun w => (Ok (map (getinfo self) (entries w)), w).

(** [ret or (termret == 1)] *)
Definition or_terminated (ret : value) (termret : Z) : value :=
  if truthy ret then ret else VBool (termret =? 1).

Fixpoint _xkill_loop (infos : list (M XProcessInfo.t)) (ret_ : value) : M value :=
  match infos with
  | [] => ret ret_
  | next :: rest =>
      info <~ next ;;
      termret <~ XProcessInfo.terminate info ;;
      let ret_ := or_terminated ret_ termret in
      let who := str_opt (XProcessInfo.pid info) ++ " " ++ XProcessInfo.name info in
      (if termret =? 1 then tw_line (who ++ " TERMINATED")
       else if termret =? -1 then tw_line (who ++ " FAILED TO TERMINATE")
       else if termret =? 0 then tw_line (who ++ " NO PROCESS FOUND")
       else ret tt) ;;;
      _xkill_loop rest ret_
  end.

Definition _xkill (self : t) : M value :=
  infos <~ _infos self ;;
  _xkill_loop infos (VInt 0).

Fixpoint _xshow_loop (infos : list (M XProcessInfo.t)) : M unit :=
  match infos with
  | [] => ret tt
  | next :: rest =>
      info <~ next ;;
      live <~ XProcessInfo.isrunning info ;;
      let running := if (live : bool) then "LIVE" else "DEAD" in
      tw_line (str_opt (XProcessInfo.pid info) ++ " " ++ XProcessInfo.name info
               ++ " " ++ running ++ " " ++ XProcessInfo.logpath info) ;;;
      _xshow_loop rest
  end.

Definition _xshow (self : t) : M Z :=
  infos <~ _infos self ;;
  _xshow_loop infos ;;;
  ret 0.

End XProcess.

(* ===================================================================== *)
(** ** Vocabulary of the statements *)
(* ===================================================================== *)

(** A string without white space: [strip] leaves it alone. *)
Fixpoint no_space (s : string) : bool :=
  match s with
  | EmptyString => true
  | String c s' => negb (is_space c) && no_space s'
  end.

(** The process a pid names is running. *)
Definition alive (pid : option Z) (w : world) : bool :=
  match pid with
  | Some z => match processes w !! z with Some p => running p | None => false end
  | None => false
  end.

(** What a termination leaves untouched: everything but the process table,
    the clock and the trace. *)
Definition frame (w w' : world) : Prop :=
  platform w' = platform w /\ entries w' = entries w /\ pidfiles w' = pidfiles w /\
  logs w' = logs w /\ supply w' = supply w /\ extlogfiles w' = extlogfiles w /\
  terminal w' = terminal w.

(** Half of the termination budget of 20. *)
Definition half : Q := (20 / 2)%Q.

(** The five ways a termination attempt on a live process can go. *)
Inductive attempt (w : world) (z : Z) (p : process) (w' : world) : Z -> Prop :=
| GracefulRefused :
    on_terminate p = Refuses -> w' = w ->
    attempt w z p w' (-1)
| GracefulExit :
    on_terminate p <> Refuses ->
    trace w' = Signalled (now w) z SIGTERM :: trace w ->
    processes w' !! z = None ->
    (now w <= now w' <= now w + half)%Q ->
    attempt w z p w' 1
| ForcefulRefused :
    on_terminate p <> Refuses -> on_kill p = Refuses ->
    trace w' = Signalled (now w) z SIGTERM :: trace w ->
    is_Some (processes w' !! z) ->
    now w' = (now w + half)%Q ->
    attempt w z p w' (-1)
| ForcefulExit :
    on_terminate p <> Refuses -> on_kill p <> Refuses ->
    trace w' = Signalled (now w + half) z SIGKILL :: Signalled (now w) z SIGTERM :: trace w ->
    processes w' !! z = None ->
    (now w + half <= now w' <= now w + half + half)%Q ->
    attempt w z p w' 1
| Survived :
    on_terminate p <> Refuses -> on_kill p <> Refuses ->
    trace w' = Signalled (now w + half) z SIGKILL :: Signalled (now w) z SIGTERM :: trace w ->
    is_Some (processes w' !! z) ->
    now w' = (now w + half + half)%Q ->
    attempt w z p w' (-1).

(** The world once a name's control directory is ensured. *)
Definition touch (name : string) (w : world) : world :=
  set_entries (fun l => if existsb (String.eqb name) l then l else (l ++ [name])%list) w.

Definition info_of (self : XProcess.t) (name : string) (pid : option Z) : XProcessInfo.t :=
  XProcessInfo.Make name
    (path_join (XProcess.rootdir self) name)
    (path_join (path_join (XProcess.rootdir self) name) "xprocess.log")
    (path_join (path_join (XProcess.rootdir self) name) "xprocess.PID")
    pid.

(** What a launch leaves behind: the child's pid in the info and in the pid
    file, an empty log, the child in the process table as the system made
    it, and the spawn and its debug line as the latest events. *)
Record launched (name : string) (wi wl : world) (info' : XProcessInfo.t)
  (pid : Z) (child : process) : Prop := {
  l_pid : XProcessInfo.pid info' = Some pid;
  l_pidfile : pidfiles wl !! name = Some (str pid);
  l_log : logs wl !! name = Some "";
  l_supply : supply wi = (pid, child) :: supply wl;
  l_child : processes wl !! pid = Some child;
  l_trace : exists args cwd env kw older,
      trace wl = LogDebug "process %r started pid=%s" [VStr name; VInt pid]
                 :: Spawned args cwd env kw pid :: older
}.

(** The world after one empty read of the pattern loop: a sleep, then the
    debug call. *)
Definition after_empty_read (w : world) : world :=
  set_trace (cons (LogDebug "" [])) (set_now (fun t => Qplus t (1 # 10)) w).

(** *** The sweep of [_xkill], told entry by entry *)

(** The line [_xkill] writes for an entry, by the code its termination gave. *)
Definition report (info : XProcessInfo.t) (code : Z) : string :=
  (str_opt (XProcessInfo.pid info) ++ " " ++ XProcessInfo.name info) ++
  (if code =? 1 then " TERMINATED"
   else if code =? -1 then " FAILED TO TERMINATE"
   else " NO PROCESS FOUND").

(** [swept self names w outs w']: starting in [w], each name in turn had its
    info built and terminated and its line written, with the infos and codes
    [outs], ending in [w']. *)
Inductive swept (self : XProcess.t) : list string -> world ->
  list (XProcessInfo.t * Z) -> world -> Prop :=
| swept_nil w : swept self [] w [] w
| swept_cons name rest w info wi code wt outs w' :
    XProcess.getinfo self name w = (Ok info, wi) ->
    XProcessInfo.terminate info wi = (Ok code, wt) ->
    swept self rest (set_terminal (fun l => (l ++ [report info code])%list) wt) outs w' ->
    swept self (name :: rest) w ((info, code) :: outs) w'.

(** The summary as the specification puts it: [_xkill] returns, having
    swept every entry of the root, and its result is true exactly when some
    entry's termination gave 1. *)
Definition summarises (self : XProcess.t) (w : world) : Prop :=
  exists ret w' outs,
    XProcess._xkill self w = (Ok ret, w') /\
    swept self (entries w) w outs w' /\
    (truthy ret = true <-> exists info, In (info, 1) outs).

(** Every pid file below the root holds an integer that can be a process
    id: one that is not negative. *)
Definition pidfiles_hold_pids (names : list string) (w : world) : Prop :=
  forall name c, In name names -> pidfiles w !! name = Some c ->
    exists z, int c = Some z /\ 0 <= z.

(** The recorded pid, if any, can be a process id. *)
Definition pid_fits (info : XProcessInfo.t) : Prop :=
  forall z, XProcessInfo.pid info = Some z -> 0 <= z.

(** *** Statements of the specification, word for word *)



(** On a log that stays empty the pattern loop is still running, whatever
    number of steps it is given. *)
Definition never_gives_up (re_search : value -> string -> bool) (self : starter)
  (pattern : value) (count : Z) (w : world) : Prop :=
  forall steps,
    fst (CompatStarter._checkpattern re_search steps self [] pattern count w) = Ok None.

(** *** Sample inputs *)

Definition supervisor : XProcess.t := XProcess.Make "/tmp/xprocess".

Definition obedient : process := Process_ true (Exits 1) (Exits 0) None.
Definition stubborn : process := Process_ true Ignores (Exits 0) None.

(** An empty control root, with one child for the system to create. *)
Definition fresh_world : world :=
  World "linux" [] ∅ ∅ ∅ 0%Q [(4242, obedient)] [] ∅ [].

(** A subclass of [ProcessStarter] whose [wait] reports readiness at once. *)
Definition ready_class : ProcessStarter.class :=
  ProcessStarter.Class (Some [VStr "server"; VInt 8080]) None
    (Some (fun f _ => (Ok (VBool true), f))) None.

(** A subclass whose [wait] gives up. *)
Definition unready_class : ProcessStarter.class :=
  ProcessStarter.Class (Some [VStr "server"; VInt 8080]) None
    (Some (fun f _ => (Ok (VBool false), f))) None.

(** A control root that tracks "db" as process [pid], with the given log. *)
Definition tracking (pid : string) (table : gmap Z process) (log : string) : world :=
  World "linux" ["db"] {["db" := pid]} {["db" := log]} table 0%Q [] [] ∅ [].



(** [re.search] for a pattern of ordinary characters: the pattern occurs
    in the line. *)
Fixpoint occurs (p s : string) : bool :=
  (String.prefix p s ||
   match s with
   | EmptyString => false
   | String _ s' => occurs p s'
   end)%bool.

Definition literal_search (pattern : value) (line : string) : bool :=
  match pattern with
  | VStr p => occurs p line
  | _ => false
  end.

(** A legacy prepare function that asks for the pattern "READY". *)
Definition ready_pattern : CompatStarter.prepare_func :=
  fun _ => (CompatStarter.NotCallable (VStr "READY"), [VStr "server"], None).

(** An instance for which [prep] goes through, as a subclass of
    [CompatStarter] that gives [args] a plain value of its own makes it:
    the attributes are those [prep] assigns for the pattern "READY". *)
Definition pattern_starter : starter :=
  Starter "/tmp/xprocess/db" (Some [VStr "server"]) None
    (CompatStarter.wait_for (CompatStarter.NotCallable (VStr "READY"))) None false.

(** A starter that has been given a [log] attribute from outside. *)
Definition with_log (s : starter) : starter :=
  Starter (control_dir s) (args s) (env s) (wait s) (own_get_lines s) true.

(** *** More sample inputs *)

(** A process that cannot be signalled. *)
Definition untouchable : process := Process_ true Refuses Refuses None.

(** The world after the best-effort termination that opens a launch: the
    recorded process, if any, has been through [terminate]. *)
Definition after_stop (info : XProcessInfo.t) (wi : world) : world :=
  match XProcessInfo.pid info with
  | Some _ => snd (XProcessInfo.terminate info wi)
  | None => wi
  end.

(** What [ensure] raises for a [preparefunc] it cannot start from, if any. *)
Definition rejection (p : preparefunc) : option exn :=
  match p with
  | Function _ => Some (TypeError "issubclass() arg 1 must be a class")
  | OtherClass => Some (AttributeError "wrap")
  | Subclass c =>
      match ProcessStarter.cls_args c with
      | None => Some (TypeError "'NoneType' object is not iterable")
      | Some _ => None
      end
  end.

(** The keyword arguments [Popen] gets on the world's platform. *)
Definition popen_kwargs_of (w : world) : popen_kwargs :=
  if String.eqb (platform w) "win32" then HiddenWindow else OwnProcessGroup.

(** A subclass of [ProcessStarter] that gives [args] and keeps the [wait]
    of the base class. *)
Definition waitless_class : ProcessStarter.class :=
  ProcessStarter.Class (Some [VStr "server"]) None None None.

(** A subclass that keeps the [wait] of the base class and has a
    [get_lines] of its own, which returns the lines it found. *)
Definition reading_class : ProcessStarter.class :=
  ProcessStarter.Class (Some [VStr "server"]) None None
    (Some (fun _ _ => Ok (VStr "READY"))).

(** A control root that tracks "db" as the process 4242, which cannot be
    signalled, with one child for the system to create. *)
Definition guarded_world : world :=
  World "linux" ["db"] {["db" := "4242"]} {["db" := "old"]} {[4242 := untouchable]}
    0%Q [(4243, obedient)] [] ∅ [].

(** Apart from the name: the pid files, logs and registered log files of
    every other name are the same in both worlds. *)
Definition others_kept (name : string) (w w' : world) : Prop :=
  forall other, other <> name ->
    pidfiles w' !! other = pidfiles w !! other /\
    logs w' !! other = logs w !! other /\
    extlogfiles w' !! other = extlogfiles w !! other.

(** A computation that keeps to the name, however it ends. *)
Definition keeps_to {A} (name : string) (m : M A) : Prop :=
  forall w r w', m w = (r, w') -> others_kept name w w'.

(** The pid a name's pid file records, if the file is there and holds one. *)
Definition recorded_pid (w : world) (name : string) : option Z :=
  match pidfiles w !! name with
  | Some c => int c
  | None => None
  end.

(** The line [_xshow] writes for a name. *)
Definition status_of (self : XProcess.t) (w : world) (name : string) : string :=
  let info := info_of self name (recorded_pid w name) in
  str_opt (XProcessInfo.pid info) ++ " " ++ XProcessInfo.name info ++ " " ++
  (if alive (XProcessInfo.pid info) w then "LIVE" else "DEAD") ++ " " ++
  XProcessInfo.logpath info.

(** Two worlds that differ in the terminal at most. *)
Definition quiet (w w' : world) : Prop :=
  platform w' = platform w /\ entries w' = entries w /\ pidfiles w' = pidfiles w /\
  logs w' = logs w /\ processes w' = processes w /\ now w' = now w /\
  supply w' = supply w /\ trace w' = trace w /\ extlogfiles w' = extlogfiles w.

(** The world after one read of the pattern loop by a starter with a [log]:
    a sleep if nothing was read, then the debug call. *)
Definition after_read (line : string) (w : world) : world :=
  set_trace (cons (LogDebug line []))
    (if String.eqb line "" then set_now (fun t => Qplus t (1 # 10)) w else w).

(* ===================================================================== *)
(** ** Decimal printing and parsing *)
(* ===================================================================== *)

Lemma lstrip_no_space s : no_space s = true -> lstrip s = s.
Proof.
  destruct s as [|c s]; simpl; [reflexivity|].
  intros H. apply andb_prop in H as [Hc _].
  destruct (is_space c); [discriminate|reflexivity].
Qed.

Lemma rstrip_no_space s : no_space s = true -> rstrip s = s.
Proof.
  induction s as [|c s IH]; simpl; [reflexivity|].
  intros H. apply andb_prop in H as [Hc Hs].
  rewrite (IH Hs). destruct (is_space c); [discriminate|reflexivity].
Qed.

Lemma strip_no_space s : no_space s = true -> strip s = s.
Proof.
  intros H. unfold strip. rewrite (lstrip_no_space s H). now apply rstrip_no_space.
Qed.

Lemma digits_no_space (u : Decimal.uint) :
  no_space (NilEmpty.string_of_uint u) = true.
Proof. induction u; simpl; auto. Qed.

Lemma int_digits (u : Decimal.uint) :
  u <> Decimal.Nil ->
  int (NilEmpty.string_of_uint u) = Some (Z.of_int (Decimal.Pos u)).
Proof.
  intros Hu. unfold int. rewrite strip_no_space by apply digits_no_space.
  pose proof (NilZero.usu u Hu) as E.
  assert (NilZero.string_of_uint u = NilEmpty.string_of_uint u) as Es
    by (destruct u; [contradiction|reflexivity..]).
  rewrite Es in E.
  destruct u; [contradiction|..]; cbn [NilEmpty.string_of_uint] in *; rewrite E; reflexivity.
Qed.

Lemma int_minus_digits (u : Decimal.uint) :
  u <> Decimal.Nil ->
  int (String "-" (NilEmpty.string_of_uint u)) = Some (Z.of_int (Decimal.Neg u)).
Proof.
  intros Hu. unfold int.
  rewrite strip_no_space by (simpl; apply digits_no_space).
  pose proof (NilZero.usu u Hu) as E.
  assert (NilZero.string_of_uint u = NilEmpty.string_of_uint u) as Es
    by (destruct u; [contradiction|reflexivity..]).
  rewrite Es in E. rewrite E. reflexivity.
Qed.

(** What [str] prints, [int] reads back. *)
Lemma int_str (z : Z) : int (str z) = Some z.
Proof.
  unfold str. rewrite <- (DecimalZ.of_to z) at 2.
  destruct z as [|p|p]; cbn [Z.to_int NilZero.string_of_int].
  - reflexivity.
  - pose proof (Unsigned.to_uint_nonnil p) as Hp.
    replace (NilZero.string_of_uint (Pos.to_uint p))
      with (NilEmpty.string_of_uint (Pos.to_uint p))
      by (destruct (Pos.to_uint p); [contradiction|reflexivity..]).
    now apply int_digits.
  - pose proof (Unsigned.to_uint_nonnil p) as Hp.
    replace (NilZero.string_of_uint (Pos.to_uint p))
      with (NilEmpty.string_of_uint (Pos.to_uint p))
      by (destruct (Pos.to_uint p); [contradiction|reflexivity..]).
    now apply int_minus_digits.
Qed.

(** *** Liveness *)

(** *** The process table and the supply, seen through non-negative ids *)

Lemma processes_lookup (w : world) (z : Z) :
  processes w !! z = if 0 <=? z then table w !! z else None.
Proof.
  unfold processes. destruct (0 <=? z) eqn:E.
  - destruct (table w !! z) as [p|] eqn:T.
    + apply map_lookup_filter_Some. split; [assumption|]. cbn. now rewrite E.
    + apply map_lookup_filter_None. left. assumption.
  - apply map_lookup_filter_None. right. intros p _. cbn. now rewrite E.
Qed.

Lemma processes_Some (w : world) (z : Z) (p : process) :
  processes w !! z = Some p -> 0 <= z /\ table w !! z = Some p.
Proof.
  rewrite processes_lookup. destruct (0 <=? z) eqn:E; [|discriminate].
  apply Z.leb_le in E. auto.
Qed.

Lemma processes_fits (w : world) (z : Z) :
  0 <= z -> processes w !! z = table w !! z.
Proof. intros H. rewrite processes_lookup. apply Z.leb_le in H. now rewrite H. Qed.

Lemma filter_head {A} (f : A -> bool) (l : list A) (a : A) (rest : list A) :
  List.filter f l = a :: rest -> f a = true /\ List.filter f rest = rest.
Proof.
  intros H.
  assert (f a = true) as Ha.
  { assert (In a (List.filter f l)) as I by (rewrite H; now left).
    now apply filter_In in I. }
  split; [assumption|].
  assert (List.filter f (List.filter f l) = List.filter f l) as I.
  { clear. induction l as [|x l IH]; [reflexivity|]. simpl.
    destruct (f x) eqn:E; simpl; rewrite ?E, IH; reflexivity. }
  rewrite H in I. simpl in I. rewrite Ha in I. now injection I.
Qed.

Lemma supply_head (w : world) (pid : Z) (child : process) (rest : list (Z * process)) :
  supply w = (pid, child) :: rest ->
  0 <= pid /\ List.filter (fun c => 0 <=? fst c) rest = rest.
Proof.
  intros H. apply filter_head in H as [H1 H2]. split; [|assumption].
  now apply Z.leb_le in H1.
Qed.

(** *** Liveness *)

Lemma isrunning_spec (info : XProcessInfo.t) (w : world) :
  pid_fits info ->
  XProcessInfo.isrunning info w = (Ok (alive (XProcessInfo.pid info) w), w).
Proof.
  unfold XProcessInfo.isrunning, alive, pid_fits. intros F.
  destruct (XProcessInfo.pid info) as [z|]; [|reflexivity].
  specialize (F z eq_refl). rewrite (processes_fits w z F).
  unfold bind, try_except, psutil.Process, psutil.is_running, ret.
  apply Z.ltb_ge in F. rewrite F.
  destruct (table w !! z) as [p|] eqn:E; simpl; [rewrite E|]; reflexivity.
Qed.

Lemma isrunning_negative (info : XProcessInfo.t) (w : world) (z : Z) :
  XProcessInfo.pid info = Some z -> z < 0 ->
  XProcessInfo.isrunning info w
    = (Raise (ValueError "pid must be a positive integer"), w).
Proof.
  intros Hp Hz. unfold XProcessInfo.isrunning. rewrite Hp.
  unfold bind, try_except, psutil.Process.
  apply Z.ltb_lt in Hz. rewrite Hz. reflexivity.
Qed.

Lemma fits_or_negative (info : XProcessInfo.t) :
  pid_fits info \/ exists z, XProcessInfo.pid info = Some z /\ z < 0.
Proof.
  unfold pid_fits. destruct (XProcessInfo.pid info) as [z|].
  - destruct (Z.le_gt_cases 0 z); [left|right; eauto].
    now intros ? [= <-].
  - left. discriminate.
Qed.

Lemma isrunning_Ok (info : XProcessInfo.t) (w w' : world) (b : bool) :
  XProcessInfo.isrunning info w = (Ok b, w') ->
  w' = w /\ b = alive (XProcessInfo.pid info) w /\ pid_fits info.
Proof.
  destruct (fits_or_negative info) as [F|(z & Hp & Hz)].
  - rewrite (isrunning_spec info w F). now intros [= <- <-].
  - now rewrite (isrunning_negative info w z Hp Hz).
Qed.

Lemma isrunning_world (info : XProcessInfo.t) (w w' : world) (r : result bool) :
  XProcessInfo.isrunning info w = (r, w') -> w' = w.
Proof.
  destruct (fits_or_negative info) as [F|(z & Hp & Hz)].
  - rewrite (isrunning_spec info w F). now intros [= <- <-].
  - rewrite (isrunning_negative info w z Hp Hz). now intros [= <- <-].
Qed.

Lemma frame_refl w : frame w w.
Proof. repeat split. Qed.

Lemma terminate_idle (info : XProcessInfo.t) (w : world) :
  pid_fits info ->
  truthy (XProcessInfo.pid_value info) = false \/ alive (XProcessInfo.pid info) w = false ->
  XProcessInfo.terminate info w = (Ok 0, w).
Proof.
  intros F H. unfold XProcessInfo.terminate, bind.
  destruct (truthy (XProcessInfo.pid_value info)) eqn:T; simpl.
  - destruct H as [H|H]; [discriminate|].
    unfold bind. rewrite (isrunning_spec info w F), H. reflexivity.
  - reflexivity.
Qed.

Lemma terminate_negative (info : XProcessInfo.t) (w : world) (z : Z) :
  XProcessInfo.pid info = Some z -> z < 0 ->
  XProcessInfo.terminate info w
    = (Raise (ValueError "pid must be a positive integer"), w).
Proof.
  intros Hp Hz. unfold XProcessInfo.terminate.
  unfold bind at 1.
  assert (truthy (XProcessInfo.pid_value info) = true) as ->.
  { unfold XProcessInfo.pid_value. rewrite Hp. simpl. apply negb_true_iff, Z.eqb_neq. lia. }
  simpl. unfold bind at 1. rewrite (isrunning_negative info w z Hp Hz). reflexivity.
Qed.

Lemma terminate_busy (info : XProcessInfo.t) (w : world) (z : Z) (p : process) :
  XProcessInfo.pid info = Some z -> z <> 0 ->
  processes w !! z = Some p -> running p = true ->
  XProcessInfo.terminate info w =
    try_except
      (proc <~ psutil.Process z ;;
       psutil.terminate proc ;;;
       try_except (psutil.wait (20 / 2)%Q proc)
         is_TimeoutExpired
         (psutil.kill proc ;;; psutil.wait (20 / 2)%Q proc) ;;;
       ret 1)
      is_psutil_Error
      (ret (-1)) w.
Proof.
  intros Hp Hz Hl Hr. unfold XProcessInfo.terminate at 1.
  unfold bind at 1.
  assert (truthy (XProcessInfo.pid_value info) = true) as ->.
  { unfold XProcessInfo.pid_value. rewrite Hp. simpl. now apply negb_true_iff, Z.eqb_neq. }
  assert (pid_fits info) as F.
  { intros z' E. rewrite Hp in E. injection E as <-. now apply processes_Some in Hl. }
  simpl. unfold bind at 1. rewrite (isrunning_spec info w F). unfold alive.
  rewrite Hp, Hl, Hr. simpl.
  reflexivity.
Qed.

(** *** The termination protocol *)


Lemma half_pos : (0 <= half)%Q.
Proof. unfold half. discriminate. Qed.

Lemma later_bounds (t e b : Q) :
  (t <= b)%Q -> Qle_bool e b = true ->
  (t <= (if Qle_bool t e then e else t) <= b)%Q.
Proof.
  intros Ht He. apply Qle_bool_iff in He. destruct (Qle_bool t e) eqn:E.
  - apply Qle_bool_iff in E. split; assumption.
  - split; [apply Qle_refl|assumption].
Qed.

Ltac run :=
  repeat progress
    (cbn [table set_trace set_table set_now now trace platform entries pidfiles
          logs children extlogfiles terminal running on_terminate on_kill exit_at
          is_psutil_Error is_TimeoutExpired is_NoSuchProcess fst snd];
     repeat match goal with
       | H : table _ !! _ = _ |- _ => rewrite H
       | H : (_ <? 0) = _ |- _ => rewrite H
       | H : on_terminate _ = _ |- _ => rewrite H
       | H : on_kill _ = _ |- _ => rewrite H
       | H : exit_at _ = _ |- _ => rewrite H
       end;
     rewrite ?lookup_insert_eq, ?lookup_delete_eq).

Ltac gone :=
  rewrite processes_lookup; run; match goal with |- (if ?b then _ else _) = _ =>
    destruct b; reflexivity end.

Ltac still :=
  rewrite processes_fits by assumption; run; eauto.

Ltac settle :=
  eexists _, _; split; [reflexivity|]; split; [repeat split|];
  solve [ apply GracefulExit; run;
            [discriminate|reflexivity|gone|apply later_bounds; [lra|assumption]]
        | apply ForcefulExit; run;
            [discriminate|discriminate|reflexivity|gone
            |apply later_bounds; [lra|assumption]]
        | apply Survived; run; [discriminate|discriminate|reflexivity|still|reflexivity]
        | apply ForcefulRefused; run; [discriminate|reflexivity|reflexivity|still|reflexivity]
        | apply GracefulRefused; reflexivity ].

Lemma terminate_attempt (info : XProcessInfo.t) (w : world) (z : Z) (p : process) :
  XProcessInfo.pid info = Some z -> z <> 0 ->
  processes w !! z = Some p -> running p = true ->
  exists code w',
    XProcessInfo.terminate info w = (Ok code, w') /\ frame w w' /\ attempt w z p w' code.
Proof.
  intros Hp Hz Hl Hr. rewrite (terminate_busy info w z p Hp Hz Hl Hr).
  apply processes_Some in Hl as [Hz0 Hl].
  assert ((z <? 0) = false) as Hneg by now apply Z.ltb_ge.
  change (20 / 2)%Q with half.
  pose proof half_pos as Hh.
  cbv [try_except bind psutil.Process psutil.terminate psutil.kill psutil.send
         psutil.wait ret].
  destruct p as [r t k e]; cbn [running] in Hr; subst r.
  repeat (run;
          match goal with
          | |- context [match ?t with Exits _ => _ | Ignores => _ | Refuses => _ end] =>
              is_var t; destruct t
          | |- context [match ?e with Some _ => _ | None => _ end] =>
              is_var e; destruct e
          | |- context [if Qle_bool ?a ?b then _ else _] =>
              destruct (Qle_bool a b) eqn:?
          end);
    run; settle.
Qed.

(** *** Stepping through computations *)

Lemma bind_Ok {A B} (m : M A) (k : A -> M B) (w w2 : world) (b : B) :
  bind m k w = (Ok b, w2) ->
  exists a w1, m w = (Ok a, w1) /\ k a w1 = (Ok b, w2).
Proof.
  unfold bind. destruct (m w) as [[a|e] w1]; [eauto|discriminate].
Qed.

Lemma bind_step {A B} (m : M A) (k : A -> M B) (w w1 : world) (a : A) :
  m w = (Ok a, w1) -> bind m k w = k a w1.
Proof. unfold bind. now intros ->. Qed.

(** *** Looking a name up *)

Lemma getinfo_spec (self : XProcess.t) (name : string) (w : world) :
  XProcess.getinfo self name w =
    match pidfiles w !! name with
    | Some c =>
        match int c with
        | Some z => (Ok (info_of self name (Some z)), touch name w)
        | None => (Raise (ValueError c), touch name w)
        end
    | None => (Ok (info_of self name None), touch name w)
    end.
Proof.
  unfold XProcess.getinfo, XProcessInfo.__init__, bind, ensure_dir, modify, read_pidfile.
  cbn [pidfiles set_entries].
  destruct (pidfiles w !! name) as [c|]; [destruct (int c)|]; reflexivity.
Qed.

(** *** Termination answers unless the pid is negative, and keeps to
    processes, clock and trace *)

Lemma terminate_total (info : XProcessInfo.t) (w : world) :
  pid_fits info ->
  exists code w',
    XProcessInfo.terminate info w = (Ok code, w') /\ frame w w' /\
    (code = 0 \/ code = 1 \/ code = -1).
Proof.
  intros F.
  destruct (XProcessInfo.pid info) as [z|] eqn:Hp.
  - destruct (Z.eq_dec z 0) as [->|Hz].
    + exists 0, w. split; [|eauto using frame_refl].
      apply terminate_idle; [assumption|]. left. unfold XProcessInfo.pid_value. now rewrite Hp.
    + destruct (alive (Some z) w) eqn:Ha.
      * unfold alive in Ha. destruct (processes w !! z) as [p|] eqn:Hl; [|discriminate].
        destruct (terminate_attempt info w z p Hp Hz Hl Ha) as (code & w' & E & Fr & A).
        exists code, w'. repeat split; try apply Fr; try exact E.
        destruct A; auto.
      * exists 0, w. split; [|eauto using frame_refl].
        apply terminate_idle; [assumption|]. right. now rewrite Hp.
  - exists 0, w. split; [|eauto using frame_refl].
    apply terminate_idle; [assumption|]. left. unfold XProcessInfo.pid_value. now rewrite Hp.
Qed.

Lemma terminate_frame (info : XProcessInfo.t) (w w' : world) (r : result Z) :
  XProcessInfo.terminate info w = (r, w') -> frame w w'.
Proof.
  destruct (fits_or_negative info) as [F|(z & Hp & Hz)].
  - destruct (terminate_total info w F) as (code & w1 & E & Fr & _).
    rewrite E. now intros [= <- <-].
  - rewrite (terminate_negative info w z Hp Hz). intros [= <- <-]. apply frame_refl.
Qed.

Lemma terminate_Ok (info : XProcessInfo.t) (w w' : world) (code : Z) :
  XProcessInfo.terminate info w = (Ok code, w') -> pid_fits info.
Proof.
  destruct (fits_or_negative info) as [F|(z & Hp & Hz)]; [auto|].
  now rewrite (terminate_negative info w z Hp Hz).
Qed.

Lemma call_wait_world (st : starter) (f : handle) (w w' : world) r :
  call_wait st f w = (r, w') -> w' = w.
Proof.
  unfold call_wait. destruct (wait st) as [|g|g|pt].
  - unfold ProcessStarter.wait, ProcessStarter.get_lines, bind, raise, ret.
    destruct (own_get_lines st) as [g|]; [destruct (g f w)|]; now intros [= _ <-].
  - destruct (g f w) as [[v|e] f']; now intros [= _ <-].
  - destruct (g w) as [v|e]; now intros [= _ <-].
  - destruct (bind_call _ _ _); unfold ret, raise; now intros [= _ <-].
Qed.

Ltac fields :=
  cbn [platform entries pidfiles logs table now children trace extlogfiles terminal
       set_entries set_pidfiles set_logs set_table set_now set_children set_trace
       set_extlogfiles set_terminal touch].

Tactic Notation "fields" "in" hyp(H) :=
  cbn [platform entries pidfiles logs table now children trace extlogfiles terminal
       set_entries set_pidfiles set_logs set_table set_now set_children set_trace
       set_extlogfiles set_terminal touch] in H.

(** *** What a launch leaves behind *)

Lemma launch_spec (self : XProcess.t) (name : string) (p : preparefunc)
  (info info' : XProcessInfo.t) (st : starter) (wi wl : world) :
  XProcess.launch self name p info wi = (Ok (st, info'), wl) ->
  exists pid child,
    launched name wi wl info' pid child /\
    XProcessInfo.logpath info' = XProcessInfo.logpath info.
Proof.
  unfold XProcess.launch. intros H.
  apply bind_Ok in H as ([] & w1 & Ht & H).
  assert (frame wi w1) as F.
  { destruct (XProcessInfo.pid info).
    - apply bind_Ok in Ht as (code & w' & E & Ht). injection Ht as <-.
      now apply terminate_frame in E.
    - now injection Ht as <-. }
  destruct F as (_ & _ & _ & _ & Fs & _).
  apply bind_Ok in H as ([] & w2 & He & H). injection He as <-.
  apply bind_Ok in H as (st' & w3 & Hi & H).
  destruct p as [c| |g]; [|discriminate..]. injection Hi as <- <-.
  apply bind_Ok in H as (argv & w4 & Ha & H).
  unfold XProcess.starter_args in Ha.
  destruct (args _) as [l|]; [|discriminate]. injection Ha as <- <-.
  cbv [bind debug modify open_wb Popen write_pidfile ret] in H.
  change (supply (set_logs ?f (set_trace ?g (set_entries ?h w1)))) with (supply w1) in H.
  cbn [set_entries set_trace set_logs set_table set_children set_pidfiles platform] in H.
  destruct (supply w1) as [|[pid child] rest] eqn:Es; [discriminate|].
  injection H as <- <- <-.
  destruct (supply_head _ _ _ _ Es) as [Hpid Hrest].
  exists pid, child. split; [|reflexivity].
  constructor.
  - reflexivity.
  - cbn. now rewrite lookup_insert_eq.
  - cbn. now rewrite lookup_insert_eq.
  - rewrite <- Fs. unfold supply. fields. now rewrite Hrest.
  - rewrite processes_fits by assumption. cbn. now rewrite lookup_insert_eq.
  - cbn. eauto 10.
Qed.

Lemma processes_touch (name : string) (w : world) : processes (touch name w) = processes w.
Proof. reflexivity. Qed.

Lemma supply_touch (name : string) (w : world) : supply (touch name w) = supply w.
Proof. reflexivity. Qed.

(** *** Reusing a live process *)

Lemma ensure_reuse (self : XProcess.t) (name : string) (p : preparefunc) (w : world)
  (c content : string) (z : Z) (pr : process) :
  pidfiles w !! name = Some c -> int c = Some z ->
  processes w !! z = Some pr -> running pr = true ->
  logs w !! name = Some content ->
  XProcess.ensure self name p false w =
    (Ok (Some z, XProcessInfo.logpath (info_of self name (Some z))),
     touch name (set_extlogfiles (insert name (Handle name (String.length content)))
                   (touch name w))).
Proof.
  intros Hc Hi Hl Hr Hg. unfold XProcess.ensure.
  unfold bind at 1. rewrite getinfo_spec, Hc, Hi.
  cbn [negb]. unfold bind at 1. unfold bind at 1.
  rewrite isrunning_spec
    by (intros z' [= <-]; now apply processes_Some in Hl).
  unfold alive. cbn [XProcessInfo.pid info_of]. rewrite processes_touch.
  rewrite Hl, Hr. cbn [negb ret]. unfold bind at 1. cbn [ret fst snd].
  unfold bind at 1, open_r. fields. rewrite Hg.
  unfold bind at 1, seek_end. cbn [h_name]. fields. rewrite Hg. cbn [default].
  unfold bind at 1, modify. unfold bind at 1. rewrite getinfo_spec.
  fields. rewrite Hc, Hi. reflexivity.
Qed.

Lemma getinfo_Ok (self : XProcess.t) (name : string) (w w' : world) (info : XProcessInfo.t) :
  XProcess.getinfo self name w = (Ok info, w') ->
  w' = touch name w /\
  info = info_of self name (XProcessInfo.pid info) /\
  match XProcessInfo.pid info with
  | Some z => exists c, pidfiles w !! name = Some c /\ int c = Some z
  | None => pidfiles w !! name = None
  end.
Proof.
  rewrite getinfo_spec.
  destruct (pidfiles w !! name) as [c|]; [destruct (int c) as [z|] eqn:E|];
    intros [= <- <-]; cbn; eauto.
Qed.

(** *** What a successful [ensure] leaves on disk *)

Lemma ensure_Ok_files (self : XProcess.t) (name : string) (p : preparefunc)
  (restart : bool) (w w' : world) (r : option Z * string) :
  XProcess.ensure self name p restart w = (Ok r, w') ->
  exists z c content,
    r = (Some z, XProcessInfo.logpath (info_of self name (Some z))) /\
    pidfiles w' !! name = Some c /\ int c = Some z /\
    logs w' !! name = Some content.
Proof.
  unfold XProcess.ensure. intros H.
  apply bind_Ok in H as (info & wi & Hg & H).
  apply bind_Ok in H as (restart' & wr & Hr & H).
  apply bind_Ok in H as ([ost info'] & ws & Hs & H).
  cbn [fst snd] in H.
  apply bind_Ok in H as (f & wo & Ho & H).
  apply bind_Ok in H as (f' & ww & Hw & H).
  apply bind_Ok in H as ([] & wm & Hm & H).
  apply bind_Ok in H as (info2 & wf & Hf & H).
  injection H as <- <-. injection Hm as <-.
  apply getinfo_Ok in Hg as (-> & Einfo & Hpid).
  apply getinfo_Ok in Hf as (-> & _ & _).
  assert (wo = ws /\ exists content, logs ws !! name = Some content) as [-> [content Hlog]].
  { unfold open_r in Ho. destruct (logs ws !! name) eqn:E; [|discriminate].
    injection Ho as _ <-. eauto. }
  assert (pidfiles ww = pidfiles ws /\ logs ww = logs ws) as [Ep El].
  { destruct ost as [st|].
    - apply bind_Ok in Hw as ([v f2] & w3 & Hc & Hw).
      apply call_wait_world in Hc as ->. cbn [fst snd] in Hw.
      destruct (truthy v); [|discriminate].
      unfold bind, debug, modify, ret in Hw. injection Hw as _ <-. now fields.
    - unfold seek_end in Hw. now injection Hw as _ <-. }
  fields. rewrite Ep, El.
  assert (wr = touch name w /\ restart' = (restart || negb (alive (XProcessInfo.pid info) (touch name w)))%bool)
    as [-> ->].
  { destruct restart; cbn [negb] in Hr.
    - now injection Hr as <- <-.
    - apply bind_Ok in Hr as (b & w1 & Hb & Hr).
      apply isrunning_Ok in Hb as (-> & -> & _). now injection Hr as <- <-. }
  destruct (restart || negb (alive (XProcessInfo.pid info) (touch name w)))%bool eqn:Er.
  - apply bind_Ok in Hs as ([st i2] & w4 & Hl & Hs). injection Hs as <- <- <-.
    apply launch_spec in Hl as (pid & child & L & Elog). cbn [snd] in *.
    destruct L as [Lp Lf Ll Ls Lc Lt]. exists pid, (str pid), "".
    rewrite Lp, Elog, Einfo. repeat split; auto using int_str.
  - injection Hs as <- <- <-.
    apply orb_false_iff in Er as [_ Ea]. apply negb_false_iff in Ea.
    destruct (XProcessInfo.pid info) as [z|] eqn:Ez; [|discriminate].
    destruct Hpid as (c & Hc & Hi). exists z, c, content.
    rewrite Einfo. repeat split; auto.
Qed.

Lemma launch_Ok_fits (self : XProcess.t) (name : string) (p : preparefunc)
  (info : XProcessInfo.t) (wi wl : world) (r : starter * XProcessInfo.t) :
  XProcess.launch self name p info wi = (Ok r, wl) -> pid_fits info.
Proof.
  unfold XProcess.launch. intros H.
  apply bind_Ok in H as ([] & w1 & Ht & _).
  destruct (XProcessInfo.pid info) as [z|] eqn:Hp.
  - apply bind_Ok in Ht as (code & w' & E & _). now apply terminate_Ok in E.
  - intros z. unfold pid_fits. rewrite Hp. discriminate.
Qed.

(* ===================================================================== *)
(** ** Loading tracked state *)
(* ===================================================================== *)

(** C10. Building the info of a name whose pid file is absent succeeds with
    [pid = None]; when the pid file exists and [int] rejects its content,
    construction raises [ValueError]. *)
Theorem init_pidfile (path name : string) (w : world) :
  (pidfiles w !! name = None ->
   exists info w',
     XProcessInfo.__init__ path name w = (Ok info, w') /\
     XProcessInfo.pid info = None) /\
  (forall c, pidfiles w !! name = Some c -> int c = None ->
   exists w', XProcessInfo.__init__ path name w = (Raise (ValueError c), w')).
Proof.
  split.
  - intros H. pose proof (getinfo_spec (XProcess.Make path) name w) as E.
    unfold XProcess.getinfo in E. cbn [XProcess.rootdir] in E. rewrite H in E.
    eexists _, _. split; [exact E|reflexivity].
  - intros c H Hc. pose proof (getinfo_spec (XProcess.Make path) name w) as E.
    unfold XProcess.getinfo in E. cbn [XProcess.rootdir] in E. rewrite H, Hc in E.
    eexists. exact E.
Qed.

Lemma init_pidfile_witness :
  (exists info w',
     XProcessInfo.__init__ "/tmp/xprocess" "db" fresh_world = (Ok info, w') /\
     XProcessInfo.pid info = None) /\
  (exists w',
     XProcessInfo.__init__ "/tmp/xprocess" "db" (tracking "4242 pid" ∅ "")
       = (Raise (ValueError "4242 pid"), w')).
Proof.
  split.
  - apply (proj1 (init_pidfile "/tmp/xprocess" "db" fresh_world)). reflexivity.
  - apply (proj2 (init_pidfile "/tmp/xprocess" "db" (tracking "4242 pid" ∅ ""))
             "4242 pid"); reflexivity.
Defined.

(* ===================================================================== *)
(** ** ensure *)
(* ===================================================================== *)

(** C8. For a name with no pid file, [ensure] with [restart=False] is
    [ensure] with [restart=True]: same result, same world. *)
Theorem ensure_fresh_name (self : XProcess.t) (name : string) (p : preparefunc)
  (w : world) :
  pidfiles w !! name = None ->
  XProcess.ensure self name p false w = XProcess.ensure self name p true w.
Proof.
  intros H. unfold XProcess.ensure.
  assert (XProcess.getinfo self name w = (Ok (info_of self name None), touch name w)) as G
    by (rewrite getinfo_spec, H; reflexivity).
  rewrite !(bind_step _ _ _ _ _ G). cbn [negb].
  assert ((r <~ XProcessInfo.isrunning (info_of self name None) ;; ret (negb r))
            (touch name w) = (Ok true, touch name w)) as D
    by (unfold bind; rewrite isrunning_spec by (intros ? [=]); reflexivity).
  rewrite (bind_step _ _ _ _ _ D).
  assert (ret true (touch name w) = (Ok true, touch name w)) as D' by reflexivity.
  rewrite (bind_step _ _ _ _ _ D').
  reflexivity.
Qed.

Lemma ensure_fresh_name_witness :
  XProcess.ensure supervisor "db" (Subclass ready_class) false fresh_world =
  XProcess.ensure supervisor "db" (Subclass ready_class) true fresh_world.
Proof. apply ensure_fresh_name. reflexivity. Defined.

(** C2. When [ensure] has returned and the process it returned is alive,
    a second [ensure] without [restart] returns the same pid and log path,
    adds nothing to the trace (no spawn, no signal) and takes no child from
    the system. *)
Theorem ensure_twice (self : XProcess.t) (name : string) (p p' : preparefunc)
  (w0 w1 : world) (r : option Z * string) :
  XProcess.ensure self name p false w0 = (Ok r, w1) ->
  alive (fst r) w1 = true ->
  exists w2,
    XProcess.ensure self name p' false w1 = (Ok r, w2) /\
    trace w2 = trace w1 /\ supply w2 = supply w1 /\ processes w2 = processes w1.
Proof.
  intros H Ha.
  apply ensure_Ok_files in H as (z & c & content & -> & Hc & Hi & Hl).
  cbn [fst alive] in Ha.
  destruct (processes w1 !! z) as [pr|] eqn:Hp; [|discriminate].
  eexists. split; [exact (ensure_reuse self name p' w1 c content z pr Hc Hi Hp Ha Hl)|].
  repeat split.
Qed.

Lemma ensure_twice_witness :
  exists w1 w2,
    XProcess.ensure supervisor "db" (Subclass ready_class) false fresh_world
      = (Ok (Some 4242, "/tmp/xprocess/db/xprocess.log"), w1) /\
    XProcess.ensure supervisor "db" (Subclass ready_class) false w1
      = (Ok (Some 4242, "/tmp/xprocess/db/xprocess.log"), w2) /\
    trace w2 = trace w1 /\ supply w2 = supply w1 /\ processes w2 = processes w1.
Proof.
  eexists.
  assert (XProcess.ensure supervisor "db" (Subclass ready_class) false fresh_world
          = (Ok (Some 4242, "/tmp/xprocess/db/xprocess.log"),
             snd (XProcess.ensure supervisor "db" (Subclass ready_class) false fresh_world)))
    as E by (vm_compute; reflexivity).
  destruct (ensure_twice supervisor "db" (Subclass ready_class) (Subclass ready_class)
              fresh_world _ _ E) as (w2 & H2 & Ht).
  - vm_compute. reflexivity.
  - exists w2. split; [exact E|]. split; [exact H2|exact Ht].
Defined.

Lemma drop_string_app (s more : string) :
  drop_string (String.length s) (s ++ more) = more.
Proof. induction s as [|c s IH]; [now destruct more|exact IH]. Qed.

Lemma string_app_empty (s : string) : s ++ "" = s.
Proof.
  induction s as [|c s IH]; [reflexivity|].
  change (String c (s ++ "") = String c s). now f_equal.
Qed.

(** C9. When the recorded process is alive and its log exists, [ensure]
    without [restart] returns, and the handle it registers under the name
    stands at the end of the log: nothing is left to read, a [readline]
    yields the empty string, and of any longer log only the appended part is
    seen. *)
Theorem ensure_reuse_reads_new_output (self : XProcess.t) (name : string)
  (p : preparefunc) (w : world) (c content : string) (z : Z) (pr : process) :
  pidfiles w !! name = Some c -> int c = Some z ->
  processes w !! z = Some pr -> running pr = true ->
  logs w !! name = Some content ->
  exists w' f,
    XProcess.ensure self name p false w
      = (Ok (Some z, XProcessInfo.logpath (info_of self name (Some z))), w') /\
    extlogfiles w' !! name = Some f /\
    logs w' !! name = Some content /\
    h_name f = name /\ h_pos f = String.length content /\
    unread f content = "" /\
    fst (readline f content) = "" /\
    (forall more, unread f (content ++ more) = more) /\
    (forall more, fst (readline f (content ++ more)) = take_line more).
Proof.
  intros Hc Hi Hp Hr Hl.
  eexists _, (Handle name (String.length content)).
  split; [exact (ensure_reuse self name p w c content z pr Hc Hi Hp Hr Hl)|].
  fields. rewrite lookup_insert_eq.
  assert (forall more, unread (Handle name (String.length content)) (content ++ more) = more)
    as U by (intros more; apply drop_string_app).
  assert (unread (Handle name (String.length content)) content = "") as U0
    by (rewrite <- (string_app_empty content) at 2; apply U).
  repeat split; auto.
  - unfold readline. now rewrite U0.
  - intros more. unfold readline. now rewrite U.
Qed.

Lemma ensure_reuse_reads_new_output_witness :
  exists w' f,
    XProcess.ensure supervisor "db" (Subclass ready_class) false
      (tracking "4242" {[4242 := obedient]} "starting
")
      = (Ok (Some 4242, "/tmp/xprocess/db/xprocess.log"), w') /\
    extlogfiles w' !! "db" = Some f /\
    h_pos f = 9%nat /\
    fst (readline f "starting
READY
") = "READY
".
Proof.
  destruct (ensure_reuse_reads_new_output supervisor "db" (Subclass ready_class)
              (tracking "4242" {[4242 := obedient]} "starting
") "4242" "starting
" 4242 obedient)
    as (w' & f & E & Hf & _ & _ & Hpos & _ & _ & _ & Hread);
    try reflexivity.
  exists w', f. repeat split; [exact E|exact Hf|exact Hpos|].
  exact (Hread "READY
").
Defined.

(** C5. When a launch has gone through and the starter's [wait] returns a
    false value, [ensure] raises [RuntimeError] with a message that ends in
    the name.  The world is then the one the launch left: the pid file holds
    the child's pid, the child is in the process table exactly as the system
    created it, and the latest events are the spawn and its debug line, with
    no signal after them. *)
Theorem ensure_startup_failure (self : XProcess.t) (name : string) (p : preparefunc)
  (restart : bool) (w wi wl : world) (info info' : XProcessInfo.t) (st : starter)
  (v : value) (f' : handle) :
  XProcess.getinfo self name w = (Ok info, wi) ->
  restart = true \/ alive (XProcessInfo.pid info) wi = false ->
  XProcess.launch self name p info wi = (Ok (st, info'), wl) ->
  fst (call_wait st (Handle name 0) wl) = Ok (v, f') ->
  truthy v = false ->
  XProcess.ensure self name p restart w
    = (Raise (RuntimeError ("Could not start process " ++ name)), wl) /\
  exists pid child args cwd env kw older,
    pidfiles wl !! name = Some (str pid) /\
    supply wi = (pid, child) :: supply wl /\
    processes wl !! pid = Some child /\
    trace wl = LogDebug "process %r started pid=%s" [VStr name; VInt pid]
               :: Spawned args cwd env kw pid :: older.
Proof.
  intros Hg Hr Hl Hw Hv. split.
  - unfold XProcess.ensure. rewrite (bind_step _ _ _ _ _ Hg).
    assert ((if negb restart
             then r <~ XProcessInfo.isrunning info ;; ret (negb r)
             else ret restart) wi = (Ok true, wi)) as D.
    { destruct restart; cbn [negb]; [reflexivity|].
      destruct Hr as [|Ha]; [discriminate|].
      unfold bind. rewrite (isrunning_spec _ _ (launch_Ok_fits _ _ _ _ _ _ _ Hl)), Ha.
      reflexivity. }
    rewrite (bind_step _ _ _ _ _ D).
    assert ((r <~ XProcess.launch self name p info ;; ret (Some (fst r), snd r)) wi
            = (Ok (Some st, info'), wl)) as L
      by (rewrite (bind_step _ _ _ _ _ Hl); reflexivity).
    rewrite (bind_step _ _ _ _ _ L). cbn [fst snd].
    apply launch_spec in Hl as (pid & child & [Lp Lf Ll Ls Lc Lt] & _).
    assert (open_r name wl = (Ok (Handle name 0), wl)) as O
      by (unfold open_r; now rewrite Ll).
    rewrite (bind_step _ _ _ _ _ O).
    destruct (call_wait st (Handle name 0) wl) as [r w2] eqn:C.
    pose proof (call_wait_world _ _ _ _ _ C) as ->. cbn [fst] in Hw. subst r.
    unfold bind at 1. unfold bind at 1. rewrite C. cbn [fst snd]. rewrite Hv.
    reflexivity.
  - apply launch_spec in Hl as (pid & child & [Lp Lf Ll Ls Lc Lt] & _).
    destruct Lt as (args & cwd & env & kw & older & T).
    exists pid, child, args, cwd, env, kw, older. auto.
Qed.

Lemma ensure_startup_failure_witness :
  exists wl,
    XProcess.ensure supervisor "db" (Subclass unready_class) false fresh_world
      = (Raise (RuntimeError "Could not start process db"), wl) /\
    pidfiles wl !! "db" = Some "4242" /\
    processes wl !! 4242 = Some obedient.
Proof.
  edestruct (ensure_startup_failure supervisor "db" (Subclass unready_class) false
               fresh_world)
    as (E & pid & child & args & cwd & env & kw & older & Hp & Hs & Hc & Ht).
  - vm_compute. reflexivity.
  - right. vm_compute. reflexivity.
  - vm_compute. reflexivity.
  - vm_compute. reflexivity.
  - reflexivity.
  - eexists. split; [exact E|]. split; vm_compute; reflexivity.
Defined.

(* ===================================================================== *)
(** ** _xkill *)
(* ===================================================================== *)

(* ===================================================================== *)
(** ** _xkill *)
(* ===================================================================== *)

Lemma swept_length self names w outs w' :
  swept self names w outs w' ->
  length outs = length names /\
  terminal w' = (terminal w ++ map (fun o => report (fst o) (snd o)) outs)%list.
Proof.
  induction 1 as [w|name rest w info wi code wt outs w' Hg Ht Hs [IHl IHt]].
  - split; [reflexivity|]. now rewrite app_nil_r.
  - split; [cbn; now rewrite IHl|].
    rewrite IHt. fields.
    apply getinfo_Ok in Hg as (-> & _).
    apply terminate_frame in Ht as (_ & _ & _ & _ & _ & _ & ->). fields.
    now rewrite <- app_assoc.
Qed.

Lemma getinfo_holds_pid (self : XProcess.t) (name : string) (names : list string)
  (w : world) :
  pidfiles_hold_pids names w -> In name names ->
  exists info,
    XProcess.getinfo self name w = (Ok info, touch name w) /\ pid_fits info.
Proof.
  intros Hparse Hin. rewrite getinfo_spec.
  destruct (pidfiles w !! name) as [c|] eqn:E.
  - destruct (Hparse name c Hin E) as (z & -> & Hz).
    eexists. split; [reflexivity|]. now intros z' [= <-].
  - eexists. split; [reflexivity|]. intros z' [=].
Qed.

Lemma xkill_loop_sweeps (self : XProcess.t) (names : list string) :
  forall (w : world) (acc : value),
    pidfiles_hold_pids names w ->
    exists ret w' outs,
      XProcess._xkill_loop (map (XProcess.getinfo self) names) acc w = (Ok ret, w') /\
      swept self names w outs w' /\
      (truthy ret = true <-> truthy acc = true \/ exists info, In (info, 1) outs) /\
      (names = [] -> ret = acc /\ w' = w).
Proof.
  induction names as [|name rest IH]; intros w acc Hparse.
  - exists acc, w, []. repeat split; try constructor; auto.
    intros [H|[info []]]; exact H.
  - cbn [map XProcess._xkill_loop].
    destruct (getinfo_holds_pid self name (name :: rest) w Hparse) as (info & Hg & Hfits);
      [now left|].
    rewrite (bind_step _ _ _ _ _ Hg).
    destruct (terminate_total info (touch name w) Hfits) as (code & wt & Et & F & Hcode).
    rewrite (bind_step _ _ _ _ _ Et).
    set (wl := set_terminal (fun l => (l ++ [report info code])%list) wt).
    assert ((if code =? 1
             then tw_line ((str_opt (XProcessInfo.pid info) ++ " " ++ XProcessInfo.name info)
                           ++ " TERMINATED")
             else if code =? -1
                  then tw_line ((str_opt (XProcessInfo.pid info) ++ " " ++ XProcessInfo.name info)
                                ++ " FAILED TO TERMINATE")
                  else if code =? 0
                       then tw_line ((str_opt (XProcessInfo.pid info) ++ " "
                                      ++ XProcessInfo.name info) ++ " NO PROCESS FOUND")
                       else ret tt) wt = (Ok tt, wl)) as Hline.
    { unfold wl, report, tw_line, modify.
      destruct Hcode as [->|[->| ->]]; reflexivity. }
    rewrite (bind_step _ _ _ _ _ Hline).
    destruct (IH wl (XProcess.or_terminated acc code)) as (ret & w' & outs & E & S & T & _).
    { intros n c Hin Hc. apply (Hparse n c); [now right|].
      destruct F as (_ & _ & Fp & _). unfold wl in Hc. fields in Hc.
      now rewrite Fp in Hc. }
    exists ret, w', ((info, code) :: outs). split; [exact E|].
    split; [econstructor; eauto|]. split; [|discriminate].
    rewrite T. unfold XProcess.or_terminated.
    destruct (truthy acc) eqn:Ta.
    + rewrite Ta. tauto.
    + cbn [truthy]. split.
      * intros [H|[i Hi]]; right; [|exists i; now right].
        apply Z.eqb_eq in H as ->. exists info. now left.
      * intros [H|[i [Hi|Hi]]]; [discriminate| |right; eauto].
        injection Hi as _ ->. now left.
Qed.

(** C7, as amended.  Over a control root whose pid files all hold an
    integer that is not negative, [_xkill] returns after sweeping the
    entries one by one, in listing order: one info, one termination and one
    written line per entry; its result is true exactly when some entry's
    termination gave 1; and over an empty root it returns 0 and leaves the
    world as it was. *)
Theorem xkill_summary (self : XProcess.t) (w : world) :
  pidfiles_hold_pids (entries w) w ->
  summarises self w /\
  (forall ret w' outs,
     XProcess._xkill self w = (Ok ret, w') -> swept self (entries w) w outs w' ->
     length outs = length (entries w) /\
     terminal w' = (terminal w ++ map (fun o => report (fst o) (snd o)) outs)%list) /\
  (entries w = [] -> XProcess._xkill self w = (Ok (VInt 0), w)).
Proof.
  intros Hparse.
  destruct (xkill_loop_sweeps self (entries w) w (VInt 0) Hparse)
    as (ret & w' & outs & E & S & T & N).
  assert (XProcess._xkill self w = (Ok ret, w')) as K by exact E.
  split; [|split].
  - exists ret, w', outs. split; [exact K|]. split; [exact S|].
    rewrite T. cbn. intuition discriminate.
  - intros ret2 w2 outs2 _ S2. now apply swept_length in S2.
  - intros Hnil. destruct (N Hnil) as [-> ->]. exact K.
Qed.

Lemma xkill_summary_witness :
  summarises supervisor (tracking "4242" {[4242 := obedient]} "") /\
  XProcess._xkill supervisor (tracking "4242" {[4242 := obedient]} "")
    = (Ok (VBool true),
       snd (XProcess._xkill supervisor (tracking "4242" {[4242 := obedient]} ""))) /\
  terminal (snd (XProcess._xkill supervisor (tracking "4242" {[4242 := obedient]} "")))
    = ["4242 db TERMINATED"] /\
  XProcess._xkill supervisor fresh_world = (Ok (VInt 0), fresh_world).
Proof.
  assert (pidfiles_hold_pids (entries (tracking "4242" {[4242 := obedient]} ""))
            (tracking "4242" {[4242 := obedient]} "")) as P.
  { intros name c [<-|[]] Hc. vm_compute in Hc. injection Hc as <-.
    exists 4242. split; [reflexivity|lia]. }
  split; [exact (proj1 (xkill_summary supervisor _ P))|].
  split; [vm_compute; reflexivity|].
  split; [vm_compute; reflexivity|].
  apply (xkill_summary supervisor fresh_world); [intros name c []|reflexivity].
Defined.

(** Without the condition on the pid files the summary fails, in two ways:
    with a pid file that is not a number the info cannot be built, and with
    one that holds -1 the liveness check inside [terminate] is refused; in
    both [_xkill] raises [ValueError] instead of returning. *)
Lemma xkill_summary_counterexample :
  ~ summarises supervisor (tracking "4242 pid" {[4242 := obedient]} "") /\
  ~ summarises supervisor (tracking "-1" {[4242 := obedient]} "").
Proof.
  split; intros (ret & w' & outs & E & _); vm_compute in E; discriminate.
Qed.

(* ===================================================================== *)
(** ** terminate *)
(* ===================================================================== *)






(* ===================================================================== *)
(** ** Waiting on a pattern *)
(* ===================================================================== *)

Section PatternLoop.
Variable re_search : value -> string -> bool.

(** One read that matches nothing uses one step and one unit of the count,
    whatever was read. *)
Lemma checkpattern_bounded (pattern : value) (n : nat) :
  forall (self : starter) (f : list string) (w : world),
    fst (CompatStarter._checkpattern re_search (S n) self f pattern (Z.of_nat n) w)
      <> Ok None.
Proof.
  induction n as [|n IH]; intros self f w.
  - cbn [CompatStarter._checkpattern]. unfold bind.
    destruct (String.eqb (hd "" f) ""); cbn [modify ret];
      (destruct (log self); cbn [debug modify raise fst]; [|discriminate]);
      (destruct (re_search pattern (hd "" f)); cbn; discriminate).
  - remember (S n) as m. cbn [CompatStarter._checkpattern]. unfold bind at 1.
    assert ((Z.of_nat m - 1 <? 0) = false) as Hc by (subst m; apply Z.ltb_ge; lia).
    assert (Z.of_nat m - 1 = Z.of_nat n) as Hn by (subst m; lia).
    destruct (String.eqb (hd "" f) ""); cbn [modify ret]; unfold bind at 1;
      (destruct (log self); cbn [debug modify raise fst]; [|discriminate]);
      (destruct (re_search pattern (hd "" f)); [cbn; discriminate|]);
      rewrite Hc, Hn; subst m; apply IH.
Qed.

Section Silent.
Variables (self : starter) (pattern : value).
Hypothesis has_log : log self = true.
Hypothesis no_match : re_search pattern "" = false.

Lemma checkpattern_empty_read (steps : nat) (count : Z) (w : world) :
  CompatStarter._checkpattern re_search (S steps) self [] pattern count w =
    if count - 1 <? 0 then (Ok (Some false), after_empty_read w)
    else CompatStarter._checkpattern re_search steps self [] pattern (count - 1)
           (after_empty_read w).
Proof.
  cbn [CompatStarter._checkpattern hd tl String.eqb].
  unfold bind at 1. cbn [modify]. unfold bind at 1. rewrite has_log.
  cbn [debug modify]. rewrite no_match.
  destruct (count - 1 <? 0); reflexivity.
Qed.

Lemma checkpattern_silent_run (n : nat) :
  forall w : world,
    exists w',
      CompatStarter._checkpattern re_search (S n) self [] pattern (Z.of_nat n) w
        = (Ok (Some false), w') /\
      (now w' == now w + inject_Z (Z.of_nat n + 1) * (1 # 10))%Q.
Proof.
  induction n as [|n IH]; intros w.
  - rewrite checkpattern_empty_read. cbn [Z.of_nat Z.sub Z.opp Z.add Z.ltb Z.compare].
    eexists. split; [reflexivity|]. cbn [after_empty_read now set_trace set_now].
    change (Z.of_nat 0 + 1) with 1. unfold inject_Z. lra.
  - rewrite checkpattern_empty_read.
    replace (Z.of_nat (S n) - 1) with (Z.of_nat n) by lia.
    replace (Z.of_nat n <? 0) with false by (symmetry; apply Z.ltb_ge; lia).
    destruct (IH (after_empty_read w)) as (w' & E & T).
    exists w'. split; [exact E|]. rewrite T.
    cbn [after_empty_read now set_trace set_now].
    rewrite Nat2Z.inj_succ. unfold Z.succ. rewrite !inject_Z_plus.
    change (inject_Z 1) with 1%Q. lra.
Qed.

Lemma checkpattern_silent_running (steps : nat) :
  forall (count : Z) (w : world),
    Z.of_nat steps <= count ->
    fst (CompatStarter._checkpattern re_search steps self [] pattern count w) = Ok None.
Proof.
  induction steps as [|steps IH]; intros count w Hc; [reflexivity|].
  rewrite checkpattern_empty_read.
  replace (count - 1 <? 0) with false by (symmetry; apply Z.ltb_ge; lia).
  apply IH. lia.
Qed.
End Silent.
End PatternLoop.

(** C4, as amended.  The count goes down at every read that does not match,
    an empty read included.  So the loop is over within [count + 1] reads on
    any log; and on a log that stays empty, with a pattern that does not
    match the empty string and a starter that has a [log], it returns
    [False] at read [count + 1] and not before, having slept a tenth of a
    time unit at each. *)
Theorem checkpattern_gives_up (re_search : value -> string -> bool)
  (pattern : value) (count : Z) :
  0 <= count ->
  (forall (self : starter) (f : list string) (w : world),
     fst (CompatStarter._checkpattern re_search (S (Z.to_nat count)) self f pattern count w)
       <> Ok None) /\
  (forall (self : starter) (w : world),
     log self = true -> re_search pattern "" = false ->
     (exists w',
        CompatStarter._checkpattern re_search (S (Z.to_nat count)) self [] pattern count w
          = (Ok (Some false), w') /\
        (now w' == now w + inject_Z (count + 1) * (1 # 10))%Q) /\
     (forall steps, (steps <= Z.to_nat count)%nat ->
        fst (CompatStarter._checkpattern re_search steps self [] pattern count w) = Ok None)).
Proof.
  intros Hc. split.
  - intros self f w.
    pose proof (checkpattern_bounded re_search pattern (Z.to_nat count) self f w) as B.
    now rewrite Z2Nat.id in B.
  - intros self w Hl Hm. split.
    + pose proof (checkpattern_silent_run re_search self pattern Hl Hm (Z.to_nat count) w) as R.
      now rewrite Z2Nat.id in R.
    + intros steps Hs.
      apply (checkpattern_silent_running re_search self pattern Hl Hm). lia.
Qed.

Lemma checkpattern_gives_up_witness :
  exists w',
    CompatStarter._checkpattern literal_search 51 (with_log pattern_starter) []
      (VStr "READY") 50 fresh_world = (Ok (Some false), w') /\
    (now w' == 0 + inject_Z (50 + 1) * (1 # 10))%Q.
Proof.
  apply (proj2 (checkpattern_gives_up literal_search (VStr "READY") 50 ltac:(discriminate))
           (with_log pattern_starter) fresh_world);
    reflexivity.
Defined.

(** The loop does give up on a log that stays empty: by step 51 it is over,
    whether the starter has a [log] (it returns [False]) or not (the first
    read ends in [AttributeError]). *)
Lemma checkpattern_gives_up_counterexample :
  ~ never_gives_up literal_search (with_log pattern_starter)
      (VStr "READY") 50 fresh_world /\
  ~ never_gives_up literal_search pattern_starter
      (VStr "READY") 50 fresh_world.
Proof.
  split; intros H; specialize (H 51%nat); vm_compute in H; discriminate H.
Qed.

(** C1.  What the code does for a pattern.  No [CompatStarter] can be
    built: the constructor, and so what [wrap] returns, raises
    [AttributeError] when [prep] assigns [args].  Handed to [ensure], a
    prepare function is rejected before anything is started.  On any
    instance that has for [wait] what [prep] makes of a pattern, [wait] is
    [expect] with the pattern as a keyword, so the log file given to it
    lands on the same parameter and the call raises [TypeError], for every
    log and every world; and if the call did bind, [expect] would return
    nothing.  [_checkpattern], which nothing calls, finds the line in the
    log. *)
Theorem pattern_wait_never_reads :
  (forall (prepare : CompatStarter.prepare_func) (control_dir : string),
     CompatStarter.__init__ prepare control_dir = Raise (AttributeError "args") /\
     CompatStarter.wrap prepare control_dir = Raise (AttributeError "args")) /\
  fst (XProcess.ensure supervisor "db" (Function ready_pattern) false fresh_world)
    = Raise (TypeError "issubclass() arg 1 must be a class") /\
  (forall (self : starter) (pattern : value) (f : handle) (w : world),
     wait self = CompatStarter.wait_for (CompatStarter.NotCallable pattern) ->
     call_wait self f w
       = (Raise (TypeError "got multiple values for argument 'pattern'"), w)) /\
  (forall (self : starter) (bound : list (string * (value + handle))),
     truthy (CompatStarter.expect self bound) = false) /\
  fst (CompatStarter._checkpattern literal_search 51 (with_log pattern_starter)
         ["starting
"; "READY
"] (VStr "READY") 50 fresh_world) = Ok (Some true).
Proof.
  split.
  { intros prepare control_dir. unfold CompatStarter.wrap, CompatStarter.__init__.
    destruct (prepare control_dir) as [[wait args] env]. split; reflexivity. }
  split; [vm_compute; reflexivity|].
  split.
  { intros self pattern f w E. unfold call_wait. rewrite E. reflexivity. }
  split; [reflexivity|].
  vm_compute. reflexivity.
Qed.

(* ===================================================================== *)
(** ** Liveness and termination, further *)
(* ===================================================================== *)

(** X1. [isrunning] leaves the world as it is.  For a negative pid it
    raises [ValueError]: [psutil.Process] refuses the pid, and only
    [NoSuchProcess] is caught.  Otherwise it does not raise: it answers
    [False] when no pid is recorded and when the system knows no process of
    that pid (the [NoSuchProcess] of [psutil.Process] is caught), and
    otherwise what [is_running()] answers. *)
Theorem isrunning_answers (info : XProcessInfo.t) (w : world) :
  (forall z, XProcessInfo.pid info = Some z -> z < 0 ->
     XProcessInfo.isrunning info w
       = (Raise (ValueError "pid must be a positive integer"), w)) /\
  ((forall z, XProcessInfo.pid info = Some z -> 0 <= z) ->
   exists b,
     XProcessInfo.isrunning info w = (Ok b, w) /\
     (XProcessInfo.pid info = None -> b = false) /\
     (forall z, XProcessInfo.pid info = Some z -> processes w !! z = None -> b = false) /\
     (forall z p, XProcessInfo.pid info = Some z -> processes w !! z = Some p ->
                  b = running p)).
Proof.
  split; [intros z Hp Hz; exact (isrunning_negative info w z Hp Hz)|].
  intros Hfits.
  exists (alive (XProcessInfo.pid info) w). split; [now apply isrunning_spec|].
  unfold alive. repeat split.
  - now intros ->.
  - intros z -> ->. reflexivity.
  - intros z p -> ->. reflexivity.
Qed.

(** X2. However [terminate] ends, it changes nothing but the process table,
    the clock and the trace: the directory listing, the pid files (the
    stale one of the process included), the logs and the registry of log
    files stay as they were.  It answers with a code unless the recorded
    pid is negative; then, and only then, it raises, the [ValueError] of
    the liveness check in its guard, and changes nothing at all. *)
Theorem terminate_keeps_files (info : XProcessInfo.t) (w w' : world) (r : result Z) :
  XProcessInfo.terminate info w = (r, w') ->
  entries w' = entries w /\ pidfiles w' = pidfiles w /\ logs w' = logs w /\
  extlogfiles w' = extlogfiles w /\ terminal w' = terminal w /\
  supply w' = supply w /\
  ((forall z, XProcessInfo.pid info = Some z -> 0 <= z) -> exists code, r = Ok code) /\
  (forall e, r = Raise e ->
     e = ValueError "pid must be a positive integer" /\ w' = w /\
     exists z, XProcessInfo.pid info = Some z /\ z < 0).
Proof.
  intros H.
  destruct (terminate_frame info w w' r H) as (_ & Fe & Fp & Fl & Fs & Fx & Ft).
  repeat (split; [assumption|]).
  destruct (fits_or_negative info) as [F|(z & Hp & Hz)].
  - destruct (terminate_total info w F) as (code & w1 & E & _).
    rewrite E in H. injection H as <- <-. split; [eauto|discriminate].
  - rewrite (terminate_negative info w z Hp Hz) in H. injection H as <- <-.
    split.
    + intros F. specialize (F z Hp). lia.
    + intros e [= <-]. eauto.
Qed.

Lemma terminate_keeps_files_witness :
  exists w',
    XProcessInfo.terminate (info_of supervisor "db" (Some 4242))
      (tracking "4242" {[4242 := obedient]} "") = (Ok 1, w') /\
    entries w' = ["db"] /\ pidfiles w' !! "db" = Some "4242".
Proof.
  assert (XProcessInfo.terminate (info_of supervisor "db" (Some 4242))
            (tracking "4242" {[4242 := obedient]} "")
          = (Ok 1, snd (XProcessInfo.terminate (info_of supervisor "db" (Some 4242))
                          (tracking "4242" {[4242 := obedient]} ""))))
    as E by (vm_compute; reflexivity).
  destruct (terminate_keeps_files _ _ _ _ E) as (He & Hp & _).
  eexists. split; [exact E|].
  split; [exact He|]. rewrite Hp. reflexivity.
Defined.

Lemma terminate_one_gone (info : XProcessInfo.t) (w w' : world) :
  XProcessInfo.terminate info w = (Ok 1, w') ->
  exists z, XProcessInfo.pid info = Some z /\ z <> 0 /\ processes w' !! z = None.
Proof.
  intros H. pose proof (terminate_Ok _ _ _ _ H) as Hfits.
  destruct (XProcessInfo.pid info) as [z|] eqn:Hp.
  - destruct (Z.eq_dec z 0) as [->|Hz].
    + rewrite terminate_idle in H; [discriminate|assumption|].
      left. unfold XProcessInfo.pid_value. now rewrite Hp.
    + destruct (alive (Some z) w) eqn:Ha.
      * unfold alive in Ha. destruct (processes w !! z) as [p|] eqn:Hl; [|discriminate].
        destruct (terminate_attempt info w z p Hp Hz Hl Ha) as (code & w2 & E & _ & A).
        rewrite E in H. injection H as -> ->.
        exists z. repeat split; auto.
        inversion A; auto.
      * rewrite terminate_idle in H; [discriminate|assumption|]. right. now rewrite Hp.
  - rewrite terminate_idle in H; [discriminate|assumption|].
    left. unfold XProcessInfo.pid_value. now rewrite Hp.
Qed.

(** X3. Once [terminate] has answered 1 the process is gone: [isrunning]
    answers [False], and a second [terminate] answers 0 without sending any
    signal or letting time pass. *)
Theorem terminate_twice (info : XProcessInfo.t) (w w' : world) :
  XProcessInfo.terminate info w = (Ok 1, w') ->
  XProcessInfo.isrunning info w' = (Ok false, w') /\
  XProcessInfo.terminate info w' = (Ok 0, w').
Proof.
  intros H. pose proof (terminate_Ok _ _ _ _ H) as Hfits.
  apply terminate_one_gone in H as (z & Hp & _ & Hg).
  assert (alive (XProcessInfo.pid info) w' = false) as Ha
    by (unfold alive; now rewrite Hp, Hg).
  split.
  - now rewrite (isrunning_spec info w' Hfits), Ha.
  - apply terminate_idle; [assumption|]. now right.
Qed.

Lemma terminate_twice_witness :
  exists w',
    XProcessInfo.terminate (info_of supervisor "db" (Some 4242))
      (tracking "4242" {[4242 := obedient]} "") = (Ok 1, w') /\
    XProcessInfo.isrunning (info_of supervisor "db" (Some 4242)) w' = (Ok false, w') /\
    XProcessInfo.terminate (info_of supervisor "db" (Some 4242)) w' = (Ok 0, w').
Proof.
  eexists. split; [vm_compute; reflexivity|].
  apply (terminate_twice (info_of supervisor "db" (Some 4242))
           (tracking "4242" {[4242 := obedient]} "")).
  vm_compute. reflexivity.
Defined.

(* ===================================================================== *)
(** ** Looking a name up, further *)
(* ===================================================================== *)

Lemma touch_again (name : string) (w : world) : touch name (touch name w) = touch name w.
Proof.
  unfold touch, set_entries; cbn. f_equal.
  destruct (existsb (String.eqb name) (entries w)) eqn:E; [now rewrite E|].
  rewrite existsb_app. cbn. rewrite String.eqb_refl, orb_true_r. reflexivity.
Qed.

Lemma touch_listed (name : string) (w : world) :
  In name (entries w) -> touch name w = w.
Proof.
  intros H. unfold touch, set_entries.
  assert (existsb (String.eqb name) (entries w) = true) as ->.
  { apply existsb_exists. exists name. split; [exact H|apply String.eqb_refl]. }
  now destruct w.
Qed.

Lemma touch_lists (name : string) (w : world) : In name (entries (touch name w)).
Proof.
  unfold touch, set_entries; cbn.
  destruct (existsb (String.eqb name) (entries w)) eqn:E.
  - apply existsb_exists in E as (n & Hn & He). apply String.eqb_eq in He. now subst.
  - apply in_or_app. right. now left.
Qed.

(** X4. [getinfo] creates the control directory of the name it is asked
    about, once: afterwards the name is listed below the root, a listing
    without repeats stays without repeats, and asking again gives the same
    answer (the same info, or the same [ValueError]) and changes nothing
    more.  Pid files, logs and processes are only read. *)
Theorem getinfo_creates_directory_once (self : XProcess.t) (name : string)
  (w w1 : world) (r : result XProcessInfo.t) :
  XProcess.getinfo self name w = (r, w1) ->
  In name (entries w1) /\
  (NoDup (entries w) -> NoDup (entries w1)) /\
  (In name (entries w) -> w1 = w) /\
  XProcess.getinfo self name w1 = (r, w1) /\
  pidfiles w1 = pidfiles w /\ logs w1 = logs w /\ processes w1 = processes w /\
  trace w1 = trace w.
Proof.
  intros H.
  assert (w1 = touch name w) as ->.
  { rewrite getinfo_spec in H.
    destruct (pidfiles w !! name) as [c|]; [destruct (int c)|]; now injection H. }
  split; [apply touch_lists|].
  split.
  { intros N. unfold touch, set_entries; cbn.
    destruct (existsb (String.eqb name) (entries w)) eqn:E; [exact N|].
    apply NoDup_app. split; [exact N|]. split; [|apply NoDup_singleton].
    intros x Hx Hs. apply list_elem_of_In in Hx, Hs. destruct Hs as [<-|[]].
    assert (existsb (String.eqb name) (entries w) = true) as E'
      by (apply existsb_exists; exists name; split; [exact Hx|apply String.eqb_refl]).
    congruence. }
  split; [apply touch_listed|].
  split.
  { rewrite getinfo_spec in *. fields. rewrite touch_again.
    destruct (pidfiles w !! name) as [c|]; [destruct (int c)|];
      injection H as <-; reflexivity. }
  repeat split.
Qed.

Lemma getinfo_creates_directory_once_witness :
  In "db" (entries (snd (XProcess.getinfo supervisor "db" fresh_world))) /\
  XProcess.getinfo supervisor "db" (snd (XProcess.getinfo supervisor "db" fresh_world))
    = XProcess.getinfo supervisor "db" fresh_world.
Proof.
  destruct (getinfo_creates_directory_once supervisor "db" fresh_world
              (snd (XProcess.getinfo supervisor "db" fresh_world))
              (fst (XProcess.getinfo supervisor "db" fresh_world)))
    as (Hin & _ & _ & Hagain & _).
  - vm_compute. reflexivity.
  - split; [exact Hin|]. rewrite Hagain. vm_compute. reflexivity.
Defined.

(* ===================================================================== *)
(** ** ensure, path by path *)
(* ===================================================================== *)

Lemma stop_step (info : XProcessInfo.t) (wi : world) :
  pid_fits info ->
  (match XProcessInfo.pid info with
   | Some _ => XProcessInfo.terminate info ;;; ret tt
   | None => ret tt
   end) wi = (Ok tt, after_stop info wi).
Proof.
  intros Hfits.
  unfold after_stop. destruct (XProcessInfo.pid info) eqn:Hp; [|reflexivity].
  destruct (terminate_total info wi Hfits) as (code & w' & E & _).
  rewrite (bind_step _ _ _ _ _ E), E. reflexivity.
Qed.

Lemma after_stop_frame (info : XProcessInfo.t) (wi : world) :
  frame wi (after_stop info wi).
Proof.
  unfold after_stop. destruct (XProcessInfo.pid info); [|apply frame_refl].
  destruct (XProcessInfo.terminate info wi) as [r w'] eqn:E.
  now apply terminate_frame in E.
Qed.

Lemma decide_restart (info : XProcessInfo.t) (restart : bool) (wi : world) :
  pid_fits info ->
  (if negb restart
   then r <~ XProcessInfo.isrunning info ;; ret (negb r)
   else ret restart) wi
  = (Ok (restart || negb (alive (XProcessInfo.pid info) wi))%bool, wi).
Proof.
  intros Hfits.
  destruct restart; cbn [negb orb]; [reflexivity|].
  unfold bind. now rewrite (isrunning_spec info wi Hfits).
Qed.

(** A launch that raises is where [ensure] ends. *)
Lemma ensure_launch_raises (self : XProcess.t) (name : string) (p : preparefunc)
  (restart : bool) (w wi wl : world) (info : XProcessInfo.t) (e : exn) :
  XProcess.getinfo self name w = (Ok info, wi) ->
  pid_fits info ->
  (restart || negb (alive (XProcessInfo.pid info) wi))%bool = true ->
  XProcess.launch self name p info wi = (Raise e, wl) ->
  XProcess.ensure self name p restart w = (Raise e, wl).
Proof.
  intros Hg Hfits Hd Hl. unfold XProcess.ensure.
  rewrite (bind_step _ _ _ _ _ Hg).
  rewrite (bind_step _ _ _ _ _ (decide_restart info restart wi Hfits)), Hd.
  unfold bind at 1. unfold bind at 1. now rewrite Hl.
Qed.

(** After a launch, [ensure] is decided by what [wait] answers. *)
Lemma ensure_launch_ok (self : XProcess.t) (name : string) (p : preparefunc)
  (restart : bool) (w wi wl : world) (info info' : XProcessInfo.t) (st : starter) :
  XProcess.getinfo self name w = (Ok info, wi) ->
  (restart || negb (alive (XProcessInfo.pid info) wi))%bool = true ->
  XProcess.launch self name p info wi = (Ok (st, info'), wl) ->
  XProcess.ensure self name p restart w =
    match fst (call_wait st (Handle name 0) wl) with
    | Raise e => (Raise e, wl)
    | Ok (v, f') =>
        if truthy v
        then (Ok (XProcessInfo.pid info', XProcessInfo.logpath info'),
              touch name
                (set_extlogfiles (insert name f')
                   (set_trace (cons (LogDebug "%s process startup detected" [VStr name]))
                      wl)))
        else (Raise (RuntimeError ("Could not start process " ++ name)), wl)
    end.
Proof.
  intros Hg Hd Hl. unfold XProcess.ensure.
  rewrite (bind_step _ _ _ _ _ Hg).
  rewrite (bind_step _ _ _ _ _
             (decide_restart info restart wi (launch_Ok_fits _ _ _ _ _ _ _ Hl))), Hd.
  assert ((r <~ XProcess.launch self name p info ;; ret (Some (fst r), snd r)) wi
          = (Ok (Some st, info'), wl)) as L
    by (rewrite (bind_step _ _ _ _ _ Hl); reflexivity).
  rewrite (bind_step _ _ _ _ _ L). cbn [fst snd].
  apply launch_spec in Hl as (pid & child & [Lp Lf Ll Ls Lc Lt] & _).
  assert (open_r name wl = (Ok (Handle name 0), wl)) as O
    by (unfold open_r; now rewrite Ll).
  rewrite (bind_step _ _ _ _ _ O).
  destruct (call_wait st (Handle name 0) wl) as [r w2] eqn:C.
  pose proof (call_wait_world _ _ _ _ _ C) as ->. cbn [fst].
  unfold bind at 1. unfold bind at 1. rewrite C.
  destruct r as [[v f']|e]; [|reflexivity]. cbn [fst snd].
  destruct (truthy v); [|reflexivity].
  unfold bind at 1, debug, modify. cbn [ret].
  unfold bind at 1. unfold bind at 1. rewrite getinfo_spec. fields.
  rewrite Lf, int_str. reflexivity.
Qed.

(** The three ways into, and out of, the launch itself. *)
Lemma launch_rejected (self : XProcess.t) (name : string) (p : preparefunc)
  (info : XProcessInfo.t) (wi : world) (e : exn) :
  pid_fits info ->
  rejection p = Some e ->
  XProcess.launch self name p info wi = (Raise e, touch name (after_stop info wi)).
Proof.
  intros Hfits R. unfold XProcess.launch.
  rewrite (bind_step _ _ _ _ _ (stop_step info wi Hfits)).
  unfold bind at 1, ensure_dir, modify. fold (touch name (after_stop info wi)).
  destruct p as [c| |g]; cbn in R.
  - destruct (ProcessStarter.cls_args c) eqn:Ea; [discriminate|]. injection R as <-.
    unfold bind at 1. cbn [XProcess.instantiate ret].
    unfold bind at 1, XProcess.starter_args. cbn [ProcessStarter.__init__ args].
    now rewrite Ea.
  - now injection R as <-.
  - now injection R as <-.
Qed.

Lemma launch_runs (self : XProcess.t) (name : string) (c : ProcessStarter.class)
  (l : list value) (info : XProcessInfo.t) (wi : world) :
  pid_fits info ->
  ProcessStarter.cls_args c = Some l ->
  let wt := touch name (after_stop info wi) in
  let cmd := LogDebug "%s$ %s"
               [VStr (XProcessInfo.controldir info);
                VStr (join " " (map str_value l))] in
  XProcess.launch self name (Subclass c) info wi =
    match supply wi with
    | [] => (Raise (EnvironmentError "Popen"),
             set_logs (insert name "") (set_trace (cons cmd) wt))
    | (pid, child) :: rest =>
        (Ok (ProcessStarter.__init__ c (XProcessInfo.controldir info),
             XProcessInfo.with_pid info (Some pid)),
         set_trace (cons (LogDebug "process %r started pid=%s" [VStr name; VInt pid]))
           (set_pidfiles (insert name (str pid))
              (set_trace (cons (Spawned (map str_value l) (XProcessInfo.controldir info)
                                  (ProcessStarter.cls_env c) (popen_kwargs_of wi) pid))
                 (set_table (insert pid child)
                    (set_children (fun _ => rest)
                       (set_logs (insert name "") (set_trace (cons cmd) wt)))))))
    end.
Proof.
  intros Hfits Ea wt cmd. subst wt cmd. unfold XProcess.launch.
  rewrite (bind_step _ _ _ _ _ (stop_step info wi Hfits)).
  unfold bind at 1, ensure_dir, modify. fold (touch name (after_stop info wi)).
  unfold bind at 1. cbn [XProcess.instantiate ret].
  unfold bind at 1, XProcess.starter_args. cbn [ProcessStarter.__init__ args env].
  rewrite Ea. cbn [ret].
  destruct (after_stop_frame info wi) as (Fpl & _ & _ & _ & Fs & _).
  cbv [bind debug modify open_wb Popen write_pidfile ret].
  change (supply (set_logs ?f (set_trace ?g (touch name (after_stop info wi)))))
    with (supply (after_stop info wi)).
  cbn [set_entries set_trace set_logs set_table set_children set_pidfiles platform
       touch]. unfold popen_kwargs_of. rewrite Fs, Fpl.
  destruct (supply wi) as [|[pid child] rest]; reflexivity.
Qed.

(** With a negative pid recorded, neither gets anywhere. *)
Lemma launch_refused (self : XProcess.t) (name : string) (p : preparefunc)
  (info : XProcessInfo.t) (wi : world) (z : Z) :
  XProcessInfo.pid info = Some z -> z < 0 ->
  XProcess.launch self name p info wi
    = (Raise (ValueError "pid must be a positive integer"), wi).
Proof.
  intros Hp Hz. unfold XProcess.launch. unfold bind at 1. rewrite Hp.
  unfold bind at 1. now rewrite (terminate_negative info wi z Hp Hz).
Qed.

Lemma ensure_refused (self : XProcess.t) (name : string) (p : preparefunc)
  (restart : bool) (w wi : world) (info : XProcessInfo.t) (z : Z) :
  XProcess.getinfo self name w = (Ok info, wi) ->
  XProcessInfo.pid info = Some z -> z < 0 ->
  XProcess.ensure self name p restart w
    = (Raise (ValueError "pid must be a positive integer"), wi).
Proof.
  intros Hg Hp Hz. unfold XProcess.ensure.
  rewrite (bind_step _ _ _ _ _ Hg).
  destruct restart; cbn [negb].
  - unfold bind at 1. cbn [ret]. unfold bind at 1. unfold bind at 1.
    now rewrite (launch_refused self name p info wi z Hp Hz).
  - unfold bind at 1. unfold bind at 1.
    now rewrite (isrunning_negative info wi z Hp Hz).
Qed.

(** X5. A successful [ensure] leaves on disk what a later load reads
    back: building the info of the name again gives the pid that [ensure]
    returned (written with [str], read with [int]) and the same log path. *)
Theorem ensure_then_getinfo (self : XProcess.t) (name : string) (p : preparefunc)
  (restart : bool) (w w1 : world) (r : option Z * string) :
  XProcess.ensure self name p restart w = (Ok r, w1) ->
  exists info,
    fst (XProcess.getinfo self name w1) = Ok info /\
    XProcessInfo.pid info = fst r /\ fst r <> None /\
    XProcessInfo.logpath info = snd r /\ XProcessInfo.name info = name.
Proof.
  intros H. apply ensure_Ok_files in H as (z & c & content & -> & Hc & Hi & _).
  exists (info_of self name (Some z)).
  rewrite getinfo_spec, Hc, Hi. repeat split. discriminate.
Qed.

Lemma ensure_then_getinfo_witness :
  exists info,
    fst (XProcess.getinfo supervisor "db"
           (snd (XProcess.ensure supervisor "db" (Subclass ready_class) false fresh_world)))
      = Ok info /\
    XProcessInfo.pid info = Some 4242.
Proof.
  destruct (ensure_then_getinfo supervisor "db" (Subclass ready_class) false fresh_world
              (snd (XProcess.ensure supervisor "db" (Subclass ready_class) false fresh_world))
              (Some 4242, "/tmp/xprocess/db/xprocess.log"))
    as (info & Hg & Hp & _).
  - vm_compute. reflexivity.
  - exists info. split; [exact Hg|exact Hp].
Defined.

(** X6. With a pid file that [int] rejects, [ensure] raises that
    [ValueError] at once, with [restart] or without: beyond creating the
    control directory it does nothing (no signal, no spawn, log and pid file
    as they were). *)
Theorem ensure_corrupt_pidfile (self : XProcess.t) (name : string) (p : preparefunc)
  (restart : bool) (w : world) (c : string) :
  pidfiles w !! name = Some c -> int c = None ->
  XProcess.ensure self name p restart w = (Raise (ValueError c), touch name w).
Proof.
  intros Hc Hi. unfold XProcess.ensure, bind at 1. now rewrite getinfo_spec, Hc, Hi.
Qed.

Lemma ensure_corrupt_pidfile_witness :
  XProcess.ensure supervisor "db" (Subclass ready_class) true
    (tracking "4242 pid" {[4242 := obedient]} "")
  = (Raise (ValueError "4242 pid"), tracking "4242 pid" {[4242 := obedient]} "").
Proof.
  exact (ensure_corrupt_pidfile supervisor "db" (Subclass ready_class) true
           (tracking "4242 pid" {[4242 := obedient]} "") "4242 pid" eq_refl eq_refl).
Defined.

(** X7. When a launch is due and [preparefunc] is a plain function, a class
    that does not derive from [ProcessStarter], or a subclass that leaves
    [args] abstract, [ensure] raises ([TypeError], [AttributeError],
    [TypeError]) before the log is opened and before anything is spawned:
    pid file, log and the system's children are as before.  The recorded
    process has been through [terminate] all the same.  That is for a
    recorded pid that is not negative; with a negative one [ensure] does
    not get this far, and raises [ValueError] with nothing but the control
    directory created. *)
Theorem ensure_rejects_after_stop (self : XProcess.t) (name : string)
  (p : preparefunc) (restart : bool) (w wi : world) (info : XProcessInfo.t) (e : exn) :
  XProcess.getinfo self name w = (Ok info, wi) ->
  restart = true \/ alive (XProcessInfo.pid info) wi = false ->
  rejection p = Some e ->
  (forall z, XProcessInfo.pid info = Some z -> z < 0 ->
     XProcess.ensure self name p restart w
       = (Raise (ValueError "pid must be a positive integer"), wi)) /\
  ((forall z, XProcessInfo.pid info = Some z -> 0 <= z) ->
   exists w',
     XProcess.ensure self name p restart w = (Raise e, w') /\
     pidfiles w' = pidfiles w /\ logs w' = logs w /\ supply w' = supply w /\
     extlogfiles w' = extlogfiles w /\
     (XProcessInfo.pid info = None -> w' = wi) /\
     (XProcessInfo.pid info <> None ->
      exists code, XProcessInfo.terminate info wi = (Ok code, w'))).
Proof.
  intros Hg Hd R.
  split; [intros z Hp Hz; exact (ensure_refused self name p restart w wi info z Hg Hp Hz)|].
  intros Hfits.
  assert ((restart || negb (alive (XProcessInfo.pid info) wi))%bool = true) as D
    by (destruct Hd as [->| ->]; [reflexivity|apply orb_true_r]).
  pose proof (launch_rejected self name p info wi e Hfits R) as L.
  exists (touch name (after_stop info wi)).
  split; [exact (ensure_launch_raises self name p restart w wi _ info e Hg Hfits D L)|].
  apply getinfo_Ok in Hg as (-> & _ & _).
  destruct (after_stop_frame info (touch name w)) as (_ & Fe & Fp & Fl & Fs & Fx & _).
  rewrite supply_touch. fields. rewrite Fp, Fl, Fs, Fx.
  assert (touch name (after_stop info (touch name w)) = after_stop info (touch name w)) as T.
  { apply touch_listed. rewrite Fe. apply touch_lists. }
  rewrite T. repeat split.
  - unfold after_stop. now intros ->.
  - intros Hp. unfold after_stop.
    pose proof (terminate_total info (touch name w) Hfits) as (code & w' & E & _).
    destruct (XProcessInfo.pid info) eqn:Epid; [|contradiction].
    exists code. now rewrite E.
Qed.

Lemma ensure_rejects_after_stop_witness :
  exists w',
    XProcess.ensure supervisor "db" (Function ready_pattern) true
      (tracking "4242" {[4242 := obedient]} "starting
") = (Raise (TypeError "issubclass() arg 1 must be a class"), w') /\
    logs w' !! "db" = Some "starting
" /\
    processes w' !! 4242 = None.
Proof.
  edestruct (ensure_rejects_after_stop supervisor "db" (Function ready_pattern) true
               (tracking "4242" {[4242 := obedient]} "starting
"))
    as [_ Hpos].
  - vm_compute. reflexivity.
  - now left.
  - reflexivity.
  - destruct Hpos as (w' & E & _ & Hl & _ & _ & _ & Ht); [intros z [= <-]; lia|].
    exists w'. split; [exact E|]. split; [now rewrite Hl|].
    destruct Ht as (code & Ht); [discriminate|].
    vm_compute in Ht. injection Ht as _ <-. reflexivity.
Defined.

(** X8. When a launch is due and the system has no child to give, [ensure]
    raises the error of [Popen]; by then the log has been emptied, while the
    pid file still holds what it held.  That is for a recorded pid that is
    not negative; with a negative one [ensure] raises [ValueError] with
    nothing but the control directory created. *)
Theorem ensure_spawn_fails (self : XProcess.t) (name : string)
  (c : ProcessStarter.class) (l : list value) (restart : bool) (w wi : world)
  (info : XProcessInfo.t) :
  XProcess.getinfo self name w = (Ok info, wi) ->
  restart = true \/ alive (XProcessInfo.pid info) wi = false ->
  ProcessStarter.cls_args c = Some l ->
  supply w = [] ->
  (forall z, XProcessInfo.pid info = Some z -> z < 0 ->
     XProcess.ensure self name (Subclass c) restart w
       = (Raise (ValueError "pid must be a positive integer"), wi)) /\
  ((forall z, XProcessInfo.pid info = Some z -> 0 <= z) ->
   exists w',
     XProcess.ensure self name (Subclass c) restart w
       = (Raise (EnvironmentError "Popen"), w') /\
     logs w' !! name = Some "" /\ pidfiles w' = pidfiles w /\
     extlogfiles w' = extlogfiles w).
Proof.
  intros Hg Hd Ea Hs.
  split; [intros z Hp Hz; exact (ensure_refused self name _ restart w wi info z Hg Hp Hz)|].
  intros Hfits.
  assert ((restart || negb (alive (XProcessInfo.pid info) wi))%bool = true) as D
    by (destruct Hd as [->| ->]; [reflexivity|apply orb_true_r]).
  pose proof (launch_runs self name c l info wi Hfits Ea) as L. cbv zeta in L.
  pose proof Hg as Hg'. apply getinfo_Ok in Hg' as (-> & _ & _).
  rewrite supply_touch, Hs in L.
  eexists. split; [exact (ensure_launch_raises _ _ _ _ _ _ _ _ _ Hg Hfits D L)|].
  destruct (after_stop_frame info (touch name w)) as (_ & _ & Fp & _ & _ & Fx & _).
  fields. rewrite lookup_insert_eq, Fp, Fx. repeat split.
Qed.

Lemma ensure_spawn_fails_witness :
  exists w',
    XProcess.ensure supervisor "db" (Subclass ready_class) true
      (tracking "4242" {[4242 := obedient]} "starting
") = (Raise (EnvironmentError "Popen"), w') /\
    logs w' !! "db" = Some "" /\
    pidfiles w' !! "db" = Some "4242".
Proof.
  edestruct (ensure_spawn_fails supervisor "db" ready_class
               [VStr "server"; VInt 8080] true
               (tracking "4242" {[4242 := obedient]} "starting
"))
    as [_ Hpos].
  - vm_compute. reflexivity.
  - now left.
  - reflexivity.
  - reflexivity.
  - destruct Hpos as (w' & E & Hl & Hp & _); [intros z [= <-]; lia|].
    exists w'. split; [exact E|]. split; [exact Hl|]. now rewrite Hp.
Defined.

(** X9. A subclass of [ProcessStarter] that gives [args] but keeps the
    [wait] and the [get_lines] of the base class cannot be started:
    whenever a launch is due and the system has a child to give, [ensure]
    spawns it, writes its pid file, and then raises [NameError] from
    [get_lines], leaving the child as the system created it.  The recorded
    pid is taken not to be negative. *)
Theorem ensure_inherited_wait (self : XProcess.t) (name : string)
  (c : ProcessStarter.class) (l : list value) (restart : bool) (w wi : world)
  (info : XProcessInfo.t) (pid : Z) (child : process) (rest : list (Z * process)) :
  XProcess.getinfo self name w = (Ok info, wi) ->
  (forall z, XProcessInfo.pid info = Some z -> 0 <= z) ->
  restart = true \/ alive (XProcessInfo.pid info) wi = false ->
  ProcessStarter.cls_args c = Some l ->
  ProcessStarter.cls_wait c = None ->
  ProcessStarter.cls_get_lines c = None ->
  supply w = (pid, child) :: rest ->
  exists w',
    XProcess.ensure self name (Subclass c) restart w = (Raise (NameError "f"), w') /\
    pidfiles w' !! name = Some (str pid) /\
    processes w' !! pid = Some child /\
    supply w' = rest /\
    extlogfiles w' = extlogfiles w.
Proof.
  intros Hg Hfits Hd Ea Hw Hgl Hs.
  assert ((restart || negb (alive (XProcessInfo.pid info) wi))%bool = true) as D
    by (destruct Hd as [->| ->]; [reflexivity|apply orb_true_r]).
  pose proof (launch_runs self name c l info wi Hfits Ea) as L. cbv zeta in L.
  pose proof Hg as Hg'. apply getinfo_Ok in Hg' as (-> & _ & _).
  rewrite supply_touch, Hs in L.
  destruct (supply_head _ _ _ _ Hs) as [Hpid Hrest].
  rewrite (ensure_launch_ok _ _ _ _ _ _ _ _ _ _ Hg D L).
  unfold call_wait. cbn [ProcessStarter.__init__ wait]. rewrite Hw.
  unfold ProcessStarter.wait. cbn [own_get_lines ProcessStarter.__init__]. rewrite Hgl.
  eexists. split; [reflexivity|].
  destruct (after_stop_frame info (touch name w)) as (_ & _ & _ & _ & _ & Fx & _).
  split; [fields; now rewrite lookup_insert_eq|].
  split; [rewrite processes_fits by assumption; fields; now rewrite lookup_insert_eq|].
  split; [unfold supply; fields; exact Hrest|].
  fields. now rewrite Fx.
Qed.

Lemma ensure_inherited_wait_witness :
  exists w',
    XProcess.ensure supervisor "db" (Subclass waitless_class) false fresh_world
      = (Raise (NameError "f"), w') /\
    pidfiles w' !! "db" = Some "4242" /\
    processes w' !! 4242 = Some obedient.
Proof.
  edestruct (ensure_inherited_wait supervisor "db" waitless_class [VStr "server"] false
               fresh_world) as (w' & E & Hp & Hc & _).
  - vm_compute. reflexivity.
  - intros z [=].
  - right. reflexivity.
  - reflexivity.
  - reflexivity.
  - reflexivity.
  - reflexivity.
  - exists w'. split; [exact E|]. split; [exact Hp|exact Hc].
Defined.

(** X22. A subclass that keeps the base class's [wait] and has a
    [get_lines] of its own that returns fares no better: [wait] drops what
    [get_lines] returned and returns nothing, which [ensure] takes for a
    failed start.  Whenever a launch is due and the system has a child to
    give, [ensure] spawns it, writes its pid file, and raises
    [RuntimeError], leaving the child as the system created it. *)
Theorem ensure_own_get_lines (self : XProcess.t) (name : string)
  (c : ProcessStarter.class) (l : list value)
  (g : handle -> world -> result value) (restart : bool) (w wi : world)
  (info : XProcessInfo.t) (pid : Z) (child : process) (rest : list (Z * process)) :
  XProcess.getinfo self name w = (Ok info, wi) ->
  (forall z, XProcessInfo.pid info = Some z -> 0 <= z) ->
  restart = true \/ alive (XProcessInfo.pid info) wi = false ->
  ProcessStarter.cls_args c = Some l ->
  ProcessStarter.cls_wait c = None ->
  ProcessStarter.cls_get_lines c = Some g ->
  supply w = (pid, child) :: rest ->
  (forall w0, exists lines, g (Handle name 0) w0 = Ok lines) ->
  exists w',
    XProcess.ensure self name (Subclass c) restart w
      = (Raise (RuntimeError ("Could not start process " ++ name)), w') /\
    pidfiles w' !! name = Some (str pid) /\
    processes w' !! pid = Some child /\
    supply w' = rest /\
    extlogfiles w' = extlogfiles w.
Proof.
  intros Hg Hfits Hd Ea Hw Hgl Hs Hlines.
  assert ((restart || negb (alive (XProcessInfo.pid info) wi))%bool = true) as D
    by (destruct Hd as [->| ->]; [reflexivity|apply orb_true_r]).
  pose proof (launch_runs self name c l info wi Hfits Ea) as L. cbv zeta in L.
  pose proof Hg as Hg'. apply getinfo_Ok in Hg' as (-> & _ & _).
  rewrite supply_touch, Hs in L.
  destruct (supply_head _ _ _ _ Hs) as [Hpid Hrest].
  rewrite (ensure_launch_ok _ _ _ _ _ _ _ _ _ _ Hg D L).
  unfold call_wait. cbn [ProcessStarter.__init__ wait]. rewrite Hw.
  unfold ProcessStarter.wait. cbn [own_get_lines ProcessStarter.__init__]. rewrite Hgl.
  unfold bind at 1. unfold bind at 1.
  match goal with |- context [g (Handle name 0) ?w0] =>
    destruct (Hlines w0) as [lines ->] end.
  cbn [ret fst snd truthy].
  eexists. split; [reflexivity|].
  destruct (after_stop_frame info (touch name w)) as (_ & _ & _ & _ & _ & Fx & _).
  split; [fields; now rewrite lookup_insert_eq|].
  split; [rewrite processes_fits by assumption; fields; now rewrite lookup_insert_eq|].
  split; [unfold supply; fields; exact Hrest|].
  fields. now rewrite Fx.
Qed.

Lemma ensure_own_get_lines_witness :
  exists w',
    XProcess.ensure supervisor "db" (Subclass reading_class) false fresh_world
      = (Raise (RuntimeError "Could not start process db"), w') /\
    pidfiles w' !! "db" = Some "4242" /\
    processes w' !! 4242 = Some obedient.
Proof.
  edestruct (ensure_own_get_lines supervisor "db" reading_class [VStr "server"]
               (fun _ _ => Ok (VStr "READY")) false fresh_world)
    as (w' & E & Hp & Hc & _).
  - vm_compute. reflexivity.
  - intros z [=].
  - right. reflexivity.
  - reflexivity.
  - reflexivity.
  - reflexivity.
  - reflexivity.
  - intros w0. eexists. reflexivity.
  - exists w'. split; [exact E|]. split; [exact Hp|exact Hc].
Defined.

(** X10. When a launch is due, the subclass gives [args], the system has a
    child to give and the subclass's [wait] answers a true value, [ensure]
    returns the child's pid and the log path, whatever became of the
    process recorded before.  The pid file then holds [str(pid)], the log
    starts empty, and the handle registered under the name is the one
    [wait] was given, at the offset where [wait] left it.  That is for a
    recorded pid that is not negative; with a negative one [ensure] raises
    [ValueError] with nothing but the control directory created. *)
Theorem ensure_launch_succeeds (self : XProcess.t) (name : string)
  (c : ProcessStarter.class) (l : list value)
  (g : handle -> world -> result value * handle) (restart : bool) (w wi : world)
  (info : XProcessInfo.t) (pid : Z) (child : process) (rest : list (Z * process))
  (v : value) (f' : handle) :
  XProcess.getinfo self name w = (Ok info, wi) ->
  restart = true \/ alive (XProcessInfo.pid info) wi = false ->
  ProcessStarter.cls_args c = Some l ->
  ProcessStarter.cls_wait c = Some g ->
  supply w = (pid, child) :: rest ->
  (forall w0, g (Handle name 0) w0 = (Ok v, f')) -> truthy v = true ->
  (forall z, XProcessInfo.pid info = Some z -> z < 0 ->
     XProcess.ensure self name (Subclass c) restart w
       = (Raise (ValueError "pid must be a positive integer"), wi)) /\
  ((forall z, XProcessInfo.pid info = Some z -> 0 <= z) ->
   exists w',
     XProcess.ensure self name (Subclass c) restart w
       = (Ok (Some pid, XProcessInfo.logpath info), w') /\
     pidfiles w' !! name = Some (str pid) /\
     logs w' !! name = Some "" /\
     extlogfiles w' !! name = Some f' /\
     processes w' !! pid = Some child /\
     supply w' = rest).
Proof.
  intros Hg Hd Ea Hw Hs Hv Ht.
  split; [intros z Hp Hz; exact (ensure_refused self name _ restart w wi info z Hg Hp Hz)|].
  intros Hfits.
  assert ((restart || negb (alive (XProcessInfo.pid info) wi))%bool = true) as D
    by (destruct Hd as [->| ->]; [reflexivity|apply orb_true_r]).
  pose proof (launch_runs self name c l info wi Hfits Ea) as L. cbv zeta in L.
  pose proof Hg as Hg'. apply getinfo_Ok in Hg' as (-> & _ & _).
  rewrite supply_touch, Hs in L.
  destruct (supply_head _ _ _ _ Hs) as [Hpid Hrest].
  rewrite (ensure_launch_ok _ _ _ _ _ _ _ _ _ _ Hg D L).
  unfold call_wait. cbn [ProcessStarter.__init__ wait]. rewrite Hw, Hv. cbn [fst].
  rewrite Ht. eexists. split; [reflexivity|].
  split; [fields; now rewrite lookup_insert_eq|].
  split; [fields; now rewrite lookup_insert_eq|].
  split; [fields; now rewrite lookup_insert_eq|].
  split; [rewrite processes_fits by assumption; fields; now rewrite lookup_insert_eq|].
  unfold supply; fields; exact Hrest.
Qed.

Lemma ensure_launch_succeeds_witness :
  exists w',
    XProcess.ensure supervisor "db" (Subclass ready_class) true guarded_world
      = (Ok (Some 4243, "/tmp/xprocess/db/xprocess.log"), w') /\
    pidfiles w' !! "db" = Some "4243" /\
    logs w' !! "db" = Some "" /\
    extlogfiles w' !! "db" = Some (Handle "db" 0).
Proof.
  edestruct (ensure_launch_succeeds supervisor "db" ready_class
               [VStr "server"; VInt 8080] (fun f _ => (Ok (VBool true), f)) true
               guarded_world)
    as [_ Hpos].
  - vm_compute. reflexivity.
  - now left.
  - reflexivity.
  - reflexivity.
  - reflexivity.
  - intros w0. reflexivity.
  - reflexivity.
  - destruct Hpos as (w' & E & Hp & Hl & Hx & _); [intros z [= <-]; lia|].
    exists w'. repeat split; [exact E|exact Hp|exact Hl|exact Hx].
Defined.

(** X11. How a launch calls [Popen] and in what order: the command line is
    logged first, then the child is spawned with every argument turned into
    a string, the control directory as working directory, the class's [env],
    and the platform's keyword arguments (a hidden window on win32, an own
    process group elsewhere), then the start is logged; all of it after
    whatever [terminate] did to the process recorded before.  That is for a
    recorded pid that is not negative; with a negative one the launch
    raises [ValueError] and does nothing. *)
Theorem launch_spawn_order (self : XProcess.t) (name : string)
  (c : ProcessStarter.class) (l : list value) (info : XProcessInfo.t) (wi : world)
  (pid : Z) (child : process) (rest : list (Z * process)) :
  ProcessStarter.cls_args c = Some l ->
  supply wi = (pid, child) :: rest ->
  (forall z, XProcessInfo.pid info = Some z -> z < 0 ->
     XProcess.launch self name (Subclass c) info wi
       = (Raise (ValueError "pid must be a positive integer"), wi)) /\
  ((forall z, XProcessInfo.pid info = Some z -> 0 <= z) ->
   exists st info' wl,
     XProcess.launch self name (Subclass c) info wi = (Ok (st, info'), wl) /\
     XProcessInfo.pid info' = Some pid /\
     trace wl =
       LogDebug "process %r started pid=%s" [VStr name; VInt pid]
       :: Spawned (map str_value l) (XProcessInfo.controldir info)
            (ProcessStarter.cls_env c)
            (if String.eqb (platform wi) "win32" then HiddenWindow else OwnProcessGroup)
            pid
       :: LogDebug "%s$ %s" [VStr (XProcessInfo.controldir info);
                             VStr (join " " (map str_value l))]
       :: trace (after_stop info wi) /\
     (XProcessInfo.pid info = None -> trace (after_stop info wi) = trace wi)).
Proof.
  intros Ea Hs.
  split; [intros z Hp Hz; exact (launch_refused self name _ info wi z Hp Hz)|].
  intros Hfits.
  pose proof (launch_runs self name c l info wi Hfits Ea) as L. cbv zeta in L.
  rewrite Hs in L. eexists _, _, _. split; [exact L|].
  fields. repeat split. unfold after_stop. now intros ->.
Qed.

Lemma launch_spawn_order_witness :
  exists st info' wl,
    XProcess.launch supervisor "db" (Subclass ready_class)
      (info_of supervisor "db" (Some 4242)) guarded_world = (Ok (st, info'), wl) /\
    trace wl =
      [LogDebug "process %r started pid=%s" [VStr "db"; VInt 4243];
       Spawned ["server"; "8080"] "/tmp/xprocess/db" None OwnProcessGroup 4243;
       LogDebug "%s$ %s" [VStr "/tmp/xprocess/db"; VStr "server 8080"]].
Proof.
  destruct (launch_spawn_order supervisor "db" ready_class [VStr "server"; VInt 8080]
              (info_of supervisor "db" (Some 4242)) guarded_world 4243 obedient [])
    as [_ Hpos]; try reflexivity.
  destruct Hpos as (st & info' & wl & E & _ & T & _); [intros z [= <-]; lia|].
  exists st, info', wl. split; [exact E|]. rewrite T. vm_compute. reflexivity.
Defined.

(** X12. A forced restart goes on when the recorded process cannot be
    signalled: [terminate] fails on it, and [ensure] still starts a child
    and records it in place of the old pid, so that the old process keeps
    running with nothing on disk naming it. *)
Theorem ensure_restart_orphans (self : XProcess.t) (name : string)
  (c : ProcessStarter.class) (l : list value)
  (g : handle -> world -> result value * handle) (w : world) (content : string)
  (z pid : Z) (old child : process) (rest : list (Z * process))
  (v : value) (f' : handle) :
  pidfiles w !! name = Some content -> int content = Some z -> z <> 0 ->
  processes w !! z = Some old -> running old = true -> on_terminate old = Refuses ->
  ProcessStarter.cls_args c = Some l ->
  ProcessStarter.cls_wait c = Some g ->
  supply w = (pid, child) :: rest -> pid <> z ->
  (forall w0, g (Handle name 0) w0 = (Ok v, f')) -> truthy v = true ->
  exists w',
    XProcess.ensure self name (Subclass c) true w
      = (Ok (Some pid, XProcessInfo.logpath (info_of self name (Some z))), w') /\
    pidfiles w' !! name = Some (str pid) /\
    processes w' !! z = Some old /\
    processes w' !! pid = Some child /\
    trace w' =
      LogDebug "%s process startup detected" [VStr name]
      :: LogDebug "process %r started pid=%s" [VStr name; VInt pid]
      :: Spawned (map str_value l) (XProcessInfo.controldir (info_of self name (Some z)))
           (ProcessStarter.cls_env c)
           (if String.eqb (platform w) "win32" then HiddenWindow else OwnProcessGroup)
           pid
      :: LogDebug "%s$ %s" [VStr (XProcessInfo.controldir (info_of self name (Some z)));
                            VStr (join " " (map str_value l))]
      :: trace w.
Proof.
  intros Hc Hi Hz Hp Hr Ho Ea Hw Hs Hne Hv Ht.
  assert (XProcess.getinfo self name w = (Ok (info_of self name (Some z)), touch name w)) as Hg
    by (now rewrite getinfo_spec, Hc, Hi).
  destruct (processes_Some _ _ _ Hp) as [Hz0 Htab].
  destruct (supply_head _ _ _ _ Hs) as [Hpid Hrest].
  assert (pid_fits (info_of self name (Some z))) as Hfits by now intros z' [= <-].
  pose proof (launch_runs self name c l (info_of self name (Some z)) (touch name w)
                Hfits Ea) as L.
  cbv zeta in L. rewrite supply_touch, Hs in L.
  rewrite (ensure_launch_ok _ _ _ true _ _ _ _ _ _ Hg eq_refl L).
  unfold call_wait. cbn [ProcessStarter.__init__ wait]. rewrite Hw, Hv. cbn [fst].
  rewrite Ht. eexists. split; [reflexivity|].
  assert (after_stop (info_of self name (Some z)) (touch name w) = touch name w) as S.
  { unfold after_stop. cbn [XProcessInfo.pid info_of].
    destruct (terminate_attempt (info_of self name (Some z)) (touch name w) z old
                eq_refl Hz Hp Hr) as (code & w2 & E & _ & A).
    rewrite E. cbn [snd].
    inversion A as [? Hw2|N|N|N|N]; [exact Hw2|contradiction..]. }
  rewrite S.
  split; [fields; now rewrite lookup_insert_eq|].
  split; [rewrite processes_fits by assumption; fields;
          now rewrite lookup_insert_ne by (now apply not_eq_sym)|].
  split; [rewrite processes_fits by assumption; fields; now rewrite lookup_insert_eq|].
  reflexivity.
Qed.

Lemma ensure_restart_orphans_witness :
  exists w',
    XProcess.ensure supervisor "db" (Subclass ready_class) true guarded_world
      = (Ok (Some 4243, "/tmp/xprocess/db/xprocess.log"), w') /\
    pidfiles w' !! "db" = Some "4243" /\
    processes w' !! 4242 = Some untouchable /\
    processes w' !! 4243 = Some obedient.
Proof.
  edestruct (ensure_restart_orphans supervisor "db" ready_class
               [VStr "server"; VInt 8080] (fun f _ => (Ok (VBool true), f))
               guarded_world "4242" 4242 4243 untouchable obedient [])
    as (w' & E & Hp & Ho & Hc & _); try reflexivity; try discriminate.
  exists w'. repeat split; [exact E|exact Hp|exact Ho|exact Hc].
Defined.

(** X13. With the recorded process alive but its log file missing, [ensure]
    without [restart] raises the error of opening the log; nothing is
    registered, signalled or spawned. *)
Theorem ensure_reuse_without_log (self : XProcess.t) (name : string)
  (p : preparefunc) (w : world) (c : string) (z : Z) (pr : process) :
  pidfiles w !! name = Some c -> int c = Some z ->
  processes w !! z = Some pr -> running pr = true ->
  logs w !! name = None ->
  XProcess.ensure self name p false w = (Raise (EnvironmentError "ENOENT"), touch name w).
Proof.
  intros Hc Hi Hp Hr Hl. unfold XProcess.ensure.
  assert (XProcess.getinfo self name w = (Ok (info_of self name (Some z)), touch name w)) as Hg
    by (now rewrite getinfo_spec, Hc, Hi).
  rewrite (bind_step _ _ _ _ _ Hg).
  assert (pid_fits (info_of self name (Some z))) as Hfits
    by (intros z' [= <-]; now apply processes_Some in Hp).
  pose proof (decide_restart (info_of self name (Some z)) false (touch name w) Hfits) as D.
  cbn [negb] in D |- *. rewrite (bind_step _ _ _ _ _ D).
  unfold alive. cbn [XProcessInfo.pid info_of orb]. rewrite processes_touch, Hp, Hr.
  cbn [negb].
  unfold bind at 1. cbn [ret fst snd]. unfold bind at 1, open_r. fields. now rewrite Hl.
Qed.

Lemma ensure_reuse_without_log_witness :
  XProcess.ensure supervisor "db" (Subclass ready_class) false
    (World "linux" ["db"] {["db" := "4242"]} ∅ {[4242 := obedient]} 0%Q [] [] ∅ [])
  = (Raise (EnvironmentError "ENOENT"),
     World "linux" ["db"] {["db" := "4242"]} ∅ {[4242 := obedient]} 0%Q [] [] ∅ []).
Proof.
  exact (ensure_reuse_without_log supervisor "db" (Subclass ready_class)
           (World "linux" ["db"] {["db" := "4242"]} ∅ {[4242 := obedient]} 0%Q [] [] ∅ [])
           "4242" 4242 obedient eq_refl eq_refl eq_refl eq_refl eq_refl).
Defined.

(* ===================================================================== *)
(** ** One name at a time *)
(* ===================================================================== *)

Lemma others_kept_refl name w : others_kept name w w.
Proof. intros other _. auto. Qed.

Lemma others_kept_trans name w1 w2 w3 :
  others_kept name w1 w2 -> others_kept name w2 w3 -> others_kept name w1 w3.
Proof.
  intros H1 H2 other Hne.
  destruct (H1 other Hne) as (A1 & B1 & C1), (H2 other Hne) as (A2 & B2 & C2).
  repeat split; congruence.
Qed.

Lemma frame_others name w w' : frame w w' -> others_kept name w w'.
Proof.
  intros (_ & _ & Fp & Fl & _ & Fx & _) other _. now rewrite Fp, Fl, Fx.
Qed.

Lemma keeps_bind {A B} name (m : M A) (k : A -> M B) :
  keeps_to name m -> (forall a, keeps_to name (k a)) -> keeps_to name (bind m k).
Proof.
  intros Hm Hk w r w'. unfold bind.
  destruct (m w) as [[a|e] w1] eqn:E; intros H.
  - eapply others_kept_trans; [exact (Hm _ _ _ E)|exact (Hk _ _ _ _ H)].
  - injection H as _ <-. exact (Hm _ _ _ E).
Qed.

Lemma keeps_still {A} name (m : M A) :
  (forall w r w', m w = (r, w') -> w' = w) -> keeps_to name m.
Proof. intros H w r w' E. rewrite (H _ _ _ E). apply others_kept_refl. Qed.

Lemma keeps_modify name (f : world -> world) :
  (forall w, others_kept name w (f w)) -> keeps_to name (modify f).
Proof. intros H w r w' [= _ <-]. apply H. Qed.

Lemma keeps_ret {A} name (a : A) : keeps_to name (ret a).
Proof. apply keeps_still. now intros w r w' [= _ <-]. Qed.

Lemma keeps_raise {A} name (e : exn) : keeps_to name (@raise A e).
Proof. apply keeps_still. now intros w r w' [= _ <-]. Qed.

Lemma keeps_getinfo self name : keeps_to name (XProcess.getinfo self name).
Proof.
  intros w r w' H. rewrite getinfo_spec in H.
  assert (w' = touch name w) as ->
    by (destruct (pidfiles w !! name) as [c|]; [destruct (int c)|]; now injection H).
  intros other _. repeat split.
Qed.

Lemma keeps_isrunning name info : keeps_to name (XProcessInfo.isrunning info).
Proof. apply keeps_still. intros w r w' H. exact (isrunning_world _ _ _ _ H). Qed.

Lemma keeps_terminate name info : keeps_to name (XProcessInfo.terminate info).
Proof.
  intros w r w' H. apply frame_others. exact (terminate_frame _ _ _ _ H).
Qed.

Lemma keeps_launch self name p info : keeps_to name (XProcess.launch self name p info).
Proof.
  unfold XProcess.launch.
  apply keeps_bind.
  { destruct (XProcessInfo.pid info); [|apply keeps_ret].
    apply keeps_bind; [apply keeps_terminate|intros; apply keeps_ret]. }
  intros _. apply keeps_bind.
  { apply keeps_modify. intros w other _. repeat split. }
  intros _. apply keeps_bind.
  { destruct p; [apply keeps_ret|apply keeps_raise..]. }
  intros st. apply keeps_bind.
  { unfold XProcess.starter_args. destruct (args st); [apply keeps_ret|apply keeps_raise]. }
  intros argv. apply keeps_bind.
  { apply keeps_modify. intros w other _. repeat split. }
  intros _. apply keeps_bind.
  { apply keeps_modify. intros w other Hne. fields.
    rewrite lookup_insert_ne by (now apply not_eq_sym). repeat split. }
  intros _. apply keeps_bind.
  { intros w r w'. unfold Popen. destruct (supply w) as [|[pid child] rest];
      intros [= _ <-]; intros other _; repeat split. }
  intros pid. apply keeps_bind.
  { apply keeps_modify. intros w other Hne. fields.
    rewrite lookup_insert_ne by (now apply not_eq_sym). repeat split. }
  intros _. apply keeps_bind.
  { apply keeps_modify. intros w other _. repeat split. }
  intros _. apply keeps_ret.
Qed.

(** X14. [ensure] keeps to the name it is given, however it ends (returning
    or raising): the pid file, the log and the registered log file of every
    other name are afterwards what they were before. *)
Theorem ensure_keeps_to_name (self : XProcess.t) (name : string) (p : preparefunc)
  (restart : bool) (w w' : world) (r : result (option Z * string)) (other : string) :
  XProcess.ensure self name p restart w = (r, w') ->
  other <> name ->
  pidfiles w' !! other = pidfiles w !! other /\
  logs w' !! other = logs w !! other /\
  extlogfiles w' !! other = extlogfiles w !! other.
Proof.
  intros H. revert other.
  change (others_kept name w w'). revert w r w' H.
  change (keeps_to name (XProcess.ensure self name p restart)).
  unfold XProcess.ensure.
  apply keeps_bind; [apply keeps_getinfo|]. intros info.
  apply keeps_bind.
  { destruct restart; cbn [negb]; [apply keeps_ret|].
    apply keeps_bind; [apply keeps_isrunning|intros; apply keeps_ret]. }
  intros restart'. apply keeps_bind.
  { destruct restart'; [|apply keeps_ret].
    apply keeps_bind; [apply keeps_launch|intros; apply keeps_ret]. }
  intros started. apply keeps_bind.
  { apply keeps_still. intros w r w'. unfold open_r.
    destruct (logs w !! name); now intros [= _ <-]. }
  intros f. apply keeps_bind.
  { destruct (fst started) as [st|].
    - apply keeps_bind.
      + apply keeps_still. intros w r w' C. exact (call_wait_world _ _ _ _ _ C).
      + intros rv. destruct (truthy (fst rv)); [|apply keeps_raise].
        apply keeps_bind; [|intros; apply keeps_ret].
        apply keeps_modify. intros w other _. repeat split.
    - apply keeps_still. intros w r w'. unfold seek_end. now intros [= _ <-]. }
  intros f2. apply keeps_bind.
  { apply keeps_modify. intros w other Hne. fields.
    rewrite lookup_insert_ne by (now apply not_eq_sym). repeat split. }
  intros _. apply keeps_bind; [apply keeps_getinfo|]. intros _. apply keeps_ret.
Qed.

Lemma ensure_keeps_to_name_witness :
  pidfiles (snd (XProcess.ensure supervisor "web" (Subclass ready_class) true guarded_world))
    !! "db" = Some "4242" /\
  logs (snd (XProcess.ensure supervisor "web" (Subclass ready_class) true guarded_world))
    !! "db" = Some "old".
Proof.
  destruct (ensure_keeps_to_name supervisor "web" (Subclass ready_class) true guarded_world
              (snd (XProcess.ensure supervisor "web" (Subclass ready_class) true guarded_world))
              (fst (XProcess.ensure supervisor "web" (Subclass ready_class) true guarded_world))
              "db") as (Hp & Hl & _).
  - now destruct (XProcess.ensure supervisor "web" (Subclass ready_class) true guarded_world).
  - discriminate.
  - split; [rewrite Hp|rewrite Hl]; reflexivity.
Defined.

(* ===================================================================== *)
(** ** The pattern loop on any log *)
(* ===================================================================== *)

Section PatternReads.
Variable re_search : value -> string -> bool.
Variables (self : starter) (pattern : value).
Hypothesis has_log : log self = true.

Lemma checkpattern_read (steps : nat) (f : list string) (count : Z) (w : world) :
  CompatStarter._checkpattern re_search (S steps) self f pattern count w =
    if re_search pattern (hd "" f) then (Ok (Some true), after_read (hd "" f) w)
    else if count - 1 <? 0 then (Ok (Some false), after_read (hd "" f) w)
         else CompatStarter._checkpattern re_search steps self (tl f) pattern (count - 1)
                (after_read (hd "" f) w).
Proof.
  cbn [CompatStarter._checkpattern]. unfold after_read.
  unfold bind at 1. destruct (String.eqb (hd "" f) ""); cbn [modify ret];
    unfold bind at 1; rewrite has_log; cbn [debug modify];
    destruct (re_search pattern (hd "" f)); try reflexivity;
    destruct (count - 1 <? 0); reflexivity.
Qed.

Lemma nth_tl (i : nat) (f : list string) : nth i (tl f) "" = nth (S i) f "".
Proof. destruct f; [now destruct i|reflexivity]. Qed.

Lemma nth_hd (f : list string) : nth 0 f "" = hd "" f.
Proof. now destruct f. Qed.

Lemma checkpattern_match_at (k : nat) :
  forall (f : list string) (count : Z) (w : world) (steps : nat),
    (forall i, (i < k)%nat -> re_search pattern (nth i f "") = false) ->
    re_search pattern (nth k f "") = true ->
    Z.of_nat k <= count -> (k < steps)%nat ->
    fst (CompatStarter._checkpattern re_search steps self f pattern count w) = Ok (Some true).
Proof.
  induction k as [|k IH]; intros f count w steps Hbefore Hat Hc Hs;
    (destruct steps as [|steps]; [lia|]); rewrite checkpattern_read.
  - rewrite <- nth_hd, Hat. reflexivity.
  - rewrite <- nth_hd, (Hbefore 0%nat) by lia.
    replace (count - 1 <? 0) with false by (symmetry; apply Z.ltb_ge; lia).
    apply IH; try lia.
    + intros i Hi. rewrite nth_tl. apply Hbefore. lia.
    + now rewrite nth_tl.
Qed.

Lemma checkpattern_no_match (n : nat) :
  forall (f : list string) (w : world),
    (forall i, (i <= n)%nat -> re_search pattern (nth i f "") = false) ->
    fst (CompatStarter._checkpattern re_search (S n) self f pattern (Z.of_nat n) w)
      = Ok (Some false).
Proof.
  induction n as [|n IH]; intros f w Hno; rewrite checkpattern_read;
    rewrite <- nth_hd, (Hno 0%nat) by lia.
  - reflexivity.
  - replace (Z.of_nat (S n) - 1) with (Z.of_nat n) by lia.
    replace (Z.of_nat n <? 0) with false by (symmetry; apply Z.ltb_ge; lia).
    apply IH. intros i Hi. rewrite nth_tl. apply Hno. lia.
Qed.

Lemma checkpattern_still_reading (steps : nat) :
  forall (f : list string) (count : Z) (w : world),
    (forall i, (i < steps)%nat -> re_search pattern (nth i f "") = false) ->
    Z.of_nat steps <= count ->
    fst (CompatStarter._checkpattern re_search steps self f pattern count w) = Ok None.
Proof.
  induction steps as [|steps IH]; intros f count w Hno Hc; [reflexivity|].
  rewrite checkpattern_read. rewrite <- nth_hd, (Hno 0%nat) by lia.
  replace (count - 1 <? 0) with false by (symmetry; apply Z.ltb_ge; lia).
  apply IH; [|lia]. intros i Hi. rewrite nth_tl. apply Hno. lia.
Qed.
End PatternReads.

(** X15. For a starter that has a [log]: when read number [k] (counting
    from 0, empty reads included) is the first whose result the pattern
    matches and [k] is at most [count], [_checkpattern] returns [True] at
    that read; it needs [k + 1] reads and no more. *)
Theorem checkpattern_first_match (re_search : value -> string -> bool)
  (self : starter) (pattern : value) (f : list string) (count : Z) (w : world)
  (k : nat) :
  log self = true ->
  (forall i, (i < k)%nat -> re_search pattern (nth i f "") = false) ->
  re_search pattern (nth k f "") = true ->
  Z.of_nat k <= count ->
  (forall steps, (k < steps)%nat ->
     fst (CompatStarter._checkpattern re_search steps self f pattern count w)
       = Ok (Some true)) /\
  (forall steps, (steps <= k)%nat ->
     fst (CompatStarter._checkpattern re_search steps self f pattern count w) = Ok None).
Proof.
  intros Hl Hbefore Hat Hc. split; intros steps Hs.
  - now apply (checkpattern_match_at re_search self pattern Hl k).
  - apply (checkpattern_still_reading re_search self pattern Hl); [|lia].
    intros i Hi. apply Hbefore. lia.
Qed.

Lemma checkpattern_first_match_witness :
  fst (CompatStarter._checkpattern literal_search 2
         (with_log pattern_starter)
         ["starting
"; "READY
"] (VStr "READY") 50 fresh_world) = Ok (Some true) /\
  fst (CompatStarter._checkpattern literal_search 1
         (with_log pattern_starter)
         ["starting
"; "READY
"] (VStr "READY") 50 fresh_world) = Ok None.
Proof.
  destruct (checkpattern_first_match literal_search
              (with_log pattern_starter)
              (VStr "READY") ["starting
"; "READY
"] 50 fresh_world 1) as [Hyes Hno].
  - reflexivity.
  - intros i Hi. assert (i = 0%nat) as -> by lia. reflexivity.
  - reflexivity.
  - discriminate.
  - split; [apply Hyes|apply Hno]; lia.
Defined.

(** X16. For a starter that has a [log] and a [count] of at least 0: when
    none of the first [count + 1] reads is matched, be they lines or empty
    reads, [_checkpattern] returns [False] at read [count + 1] and not
    before; what the log holds beyond that is never looked at. *)
Theorem checkpattern_cap (re_search : value -> string -> bool)
  (self : starter) (pattern : value) (f : list string) (count : Z) (w : world) :
  log self = true -> 0 <= count ->
  (forall i, (i <= Z.to_nat count)%nat -> re_search pattern (nth i f "") = false) ->
  fst (CompatStarter._checkpattern re_search (S (Z.to_nat count)) self f pattern count w)
    = Ok (Some false) /\
  (forall steps, (steps <= Z.to_nat count)%nat ->
     fst (CompatStarter._checkpattern re_search steps self f pattern count w) = Ok None).
Proof.
  intros Hl Hc Hno. split.
  - pose proof (checkpattern_no_match re_search self pattern Hl (Z.to_nat count) f w Hno) as R.
    now rewrite Z2Nat.id in R.
  - intros steps Hs.
    apply (checkpattern_still_reading re_search self pattern Hl); [|lia].
    intros i Hi. apply Hno. lia.
Qed.

Lemma checkpattern_cap_witness :
  fst (CompatStarter._checkpattern literal_search 3
         (with_log pattern_starter)
         ["starting
"; ""; "still starting
"; "READY
"] (VStr "READY") 2 fresh_world) = Ok (Some false).
Proof.
  apply (checkpattern_cap literal_search
           (with_log pattern_starter)
           (VStr "READY") ["starting
"; ""; "still starting
"; "READY
"] 2 fresh_world).
  - reflexivity.
  - discriminate.
  - intros i Hi. change (Z.to_nat 2) with 2%nat in Hi.
    destruct i as [|[|[|i]]]; [reflexivity..|lia].
Defined.

(** X17. On a starter without a [log], [_checkpattern] never returns: its
    first read, and the sleep after it if nothing was read, is followed by
    [AttributeError], whatever the log, the pattern and the count. *)
Theorem checkpattern_needs_log (re_search : value -> string -> bool)
  (self : starter) (f : list string) (pattern : value) (count : Z) (w : world)
  (steps : nat) :
  log self = false ->
  CompatStarter._checkpattern re_search (S steps) self f pattern count w
    = (Raise (AttributeError "log"),
       if String.eqb (hd "" f) "" then set_now (fun t => Qplus t (1 # 10)) w else w).
Proof.
  intros Hl.
  cbn [CompatStarter._checkpattern]. unfold bind at 1.
  destruct (String.eqb (hd "" f) ""); cbn [modify ret];
    unfold bind at 1; rewrite Hl; reflexivity.
Qed.

Lemma checkpattern_needs_log_witness :
  fst (CompatStarter._checkpattern literal_search 51 pattern_starter
         ["starting
"; "READY
"] (VStr "READY") 50 fresh_world) = Raise (AttributeError "log") /\
  now (snd (CompatStarter._checkpattern literal_search 51 pattern_starter
              [] (VStr "READY") 50 fresh_world)) = (0 + (1 # 10))%Q.
Proof.
  split.
  - rewrite (checkpattern_needs_log literal_search pattern_starter ["starting
"; "READY
"] (VStr "READY") 50 fresh_world 50 eq_refl). reflexivity.
  - rewrite (checkpattern_needs_log literal_search pattern_starter []
               (VStr "READY") 50 fresh_world 50 eq_refl). reflexivity.
Defined.

(* ===================================================================== *)
(** ** The two sweeps over the control root *)
(* ===================================================================== *)

Lemma quiet_refl w : quiet w w.
Proof. repeat split. Qed.

Lemma quiet_trans w1 w2 w3 : quiet w1 w2 -> quiet w2 w3 -> quiet w1 w3.
Proof.
  intros (A1 & A2 & A3 & A4 & A5 & A6 & A7 & A8 & A9)
         (B1 & B2 & B3 & B4 & B5 & B6 & B7 & B8 & B9).
  repeat split; congruence.
Qed.

Lemma status_of_quiet self w w' name : quiet w w' -> status_of self w' name = status_of self w name.
Proof.
  intros (_ & _ & Qp & _ & Qr & _). unfold status_of, recorded_pid, alive. now rewrite Qp, Qr.
Qed.

Lemma xshow_loop_reads (self : XProcess.t) (names : list string) :
  forall w : world,
    (forall name, In name names -> In name (entries w)) ->
    pidfiles_hold_pids names w ->
    exists w',
      XProcess._xshow_loop (map (XProcess.getinfo self) names) w = (Ok tt, w') /\
      quiet w w' /\
      terminal w' = (terminal w ++ map (status_of self w) names)%list.
Proof.
  induction names as [|name rest IH]; intros w Hin Hparse.
  - exists w. split; [reflexivity|]. split; [apply quiet_refl|].
    cbn. now rewrite app_nil_r.
  - cbn [map XProcess._xshow_loop].
    assert (XProcess.getinfo self name w
            = (Ok (info_of self name (recorded_pid w name)), w) /\
            pid_fits (info_of self name (recorded_pid w name))) as [Hg Hfits].
    { rewrite getinfo_spec, (touch_listed name w) by (apply Hin; now left).
      unfold recorded_pid. destruct (pidfiles w !! name) as [c|] eqn:E.
      - destruct (Hparse name c (or_introl eq_refl) E) as (z & -> & Hz).
        split; [reflexivity|]. now intros z' [= <-].
      - split; [reflexivity|]. intros z' [=]. }
    rewrite (bind_step _ _ _ _ _ Hg).
    rewrite (bind_step _ _ _ _ _ (isrunning_spec _ w Hfits)).
    unfold bind at 1, tw_line, modify.
    fold (status_of self w name).
    set (w1 := set_terminal (fun l => (l ++ [status_of self w name])%list) w).
    assert (quiet w w1) as Q1 by (repeat split).
    destruct (IH w1) as (w' & E & Q & T).
    { intros n Hn. apply Hin. now right. }
    { intros n c Hn Hc. apply (Hparse n c); [now right|exact Hc]. }
    exists w'. split; [exact E|]. split.
    + exact (quiet_trans _ _ _ Q1 Q).
    + rewrite T. unfold w1 at 1. fields. rewrite <- app_assoc. cbn [map app].
      now rewrite (map_ext _ _ (fun n => status_of_quiet self w w1 n Q1)).
Qed.

(** X18. Over a control root whose pid files all hold an integer that is
    not negative, [_xshow] returns 0 and only reads: it writes one line per entry, in listing
    order, giving the recorded pid, the name, LIVE or DEAD as [isrunning]
    answers, and the log path; directory listing, pid files, logs,
    processes, clock, trace and registry are left as they were. *)
Theorem xshow_only_reads (self : XProcess.t) (w : world) :
  pidfiles_hold_pids (entries w) w ->
  exists w',
    XProcess._xshow self w = (Ok 0, w') /\
    terminal w' = (terminal w ++ map (status_of self w) (entries w))%list /\
    quiet w w'.
Proof.
  intros Hparse.
  destruct (xshow_loop_reads self (entries w) w (fun _ H => H) Hparse) as (w' & E & Q & T).
  exists w'. split; [|split; [exact T|exact Q]].
  unfold XProcess._xshow, XProcess._infos. unfold bind at 1. unfold bind at 1.
  now rewrite E.
Qed.

Lemma xshow_only_reads_witness :
  exists w',
    XProcess._xshow supervisor guarded_world = (Ok 0, w') /\
    terminal w' = ["4242 db LIVE /tmp/xprocess/db/xprocess.log"] /\
    trace w' = [] /\ processes w' = processes guarded_world.
Proof.
  destruct (xshow_only_reads supervisor guarded_world) as (w' & E & T & Q).
  - intros name c [<-|[]] Hc. vm_compute in Hc. injection Hc as <-.
    exists 4242. split; [reflexivity|lia].
  - exists w'. split; [exact E|]. split; [rewrite T; vm_compute; reflexivity|].
    destruct Q as (_ & _ & _ & _ & Qr & _ & _ & Qt & _). split; [exact Qt|exact Qr].
Defined.

Lemma bind_inv {A B} (m : M A) (k : A -> M B) (w w' : world) (r : result B) :
  bind m k w = (r, w') ->
  (exists a w1, m w = (Ok a, w1) /\ k a w1 = (r, w')) \/
  (exists e, m w = (Raise e, w') /\ r = Raise e).
Proof.
  unfold bind. destruct (m w) as [[a|e] w1]; [eauto|].
  intros [= <- <-]. eauto.
Qed.

Lemma getinfo_world (self : XProcess.t) (name : string) (w w1 : world)
  (r : result XProcessInfo.t) :
  XProcess.getinfo self name w = (r, w1) -> w1 = touch name w.
Proof.
  rewrite getinfo_spec.
  destruct (pidfiles w !! name) as [c|]; [destruct (int c)|]; now intros [= _ <-].
Qed.

Lemma xkill_loop_keeps (self : XProcess.t) (names : list string) :
  forall (w w' : world) (acc : value) (r : result value),
    (forall name, In name names -> In name (entries w)) ->
    XProcess._xkill_loop (map (XProcess.getinfo self) names) acc w = (r, w') ->
    entries w' = entries w /\ pidfiles w' = pidfiles w /\ logs w' = logs w /\
    extlogfiles w' = extlogfiles w /\ supply w' = supply w.
Proof.
  induction names as [|name rest IH]; intros w w' acc r Hin H.
  - injection H as _ <-. repeat split.
  - cbn [map XProcess._xkill_loop] in H.
    apply bind_inv in H as [(info & w1 & Hg & H)|(e & Hg & _)].
    + apply getinfo_world in Hg. rewrite touch_listed in Hg by (apply Hin; now left).
      subst w1.
      apply bind_inv in H as [(code & wt & Ht & H)|(e & Ht & _)].
      * apply terminate_frame in Ht as (_ & Fe & Fp & Fl & Fs & Fx & _).
        apply bind_inv in H as [([] & wl & Hl & H)|(e & Hl & _)].
        -- assert (entries wl = entries wt /\ pidfiles wl = pidfiles wt /\
                   logs wl = logs wt /\ extlogfiles wl = extlogfiles wt /\
                   supply wl = supply wt) as (Le & Lp & Ll & Lx & Ls).
           { unfold tw_line, modify, ret in Hl.
             destruct (code =? 1); [|destruct (code =? -1); [|destruct (code =? 0)]];
               injection Hl as <-; repeat split. }
           apply IH in H; [|intros n Hn; rewrite Le, Fe; apply Hin; now right].
           destruct H as (He & Hp & Hlg & Hx & Hs). repeat split; congruence.
        -- unfold tw_line, modify, ret in Hl.
           destruct (code =? 1); [|destruct (code =? -1); [|destruct (code =? 0)]];
             discriminate Hl.
      * apply terminate_frame in Ht as (_ & Fe & Fp & Fl & Fs & Fx & _).
        repeat split; assumption.
    + apply getinfo_world in Hg. rewrite touch_listed in Hg by (apply Hin; now left).
      subst w'. repeat split.
Qed.

(** X19. [_xkill] removes nothing, however it ends (returning, or raising
    on a pid file that holds no number or a negative one): directory listing, pid files and
    logs are afterwards what they were, so an entry whose process was
    terminated stays listed, with its stale pid file, for the next sweep. *)
Theorem xkill_keeps_entries (self : XProcess.t) (w w' : world) (r : result value) :
  XProcess._xkill self w = (r, w') ->
  entries w' = entries w /\ pidfiles w' = pidfiles w /\ logs w' = logs w /\
  extlogfiles w' = extlogfiles w /\ supply w' = supply w.
Proof.
  unfold XProcess._xkill, XProcess._infos. unfold bind at 1. intros H.
  exact (xkill_loop_keeps self (entries w) w w' (VInt 0) r (fun _ Hn => Hn) H).
Qed.

Lemma xkill_keeps_entries_witness :
  fst (XProcess._xkill supervisor (tracking "4242" {[4242 := obedient]} ""))
    = Ok (VBool true) /\
  pidfiles (snd (XProcess._xkill supervisor (tracking "4242" {[4242 := obedient]} "")))
    !! "db" = Some "4242" /\
  entries (snd (XProcess._xkill supervisor (tracking "4242" {[4242 := obedient]} "")))
    = ["db"].
Proof.
  destruct (xkill_keeps_entries supervisor (tracking "4242" {[4242 := obedient]} "")
              (snd (XProcess._xkill supervisor (tracking "4242" {[4242 := obedient]} "")))
              (fst (XProcess._xkill supervisor (tracking "4242" {[4242 := obedient]} ""))))
    as (He & Hp & _).
  - now destruct (XProcess._xkill supervisor (tracking "4242" {[4242 := obedient]} "")).
  - split; [vm_compute; reflexivity|]. split; [rewrite Hp|rewrite He]; reflexivity.
Defined.

(** X20. A launch over a recorded process that is running (pid not 0) and
    does not refuse the graceful signal sends that signal first: in the
    trace the spawn of the new child comes after the SIGTERM to the old pid,
    and after the SIGKILL if the graceful wait ran out. *)
Theorem launch_terminates_first (self : XProcess.t) (name : string)
  (c : ProcessStarter.class) (l : list value) (info : XProcessInfo.t) (wi : world)
  (z pid : Z) (old child : process) (rest : list (Z * process)) :
  XProcessInfo.pid info = Some z -> z <> 0 ->
  processes wi !! z = Some old -> running old = true -> on_terminate old <> Refuses ->
  ProcessStarter.cls_args c = Some l ->
  supply wi = (pid, child) :: rest ->
  exists st info' wl args cwd env kw escalation,
    XProcess.launch self name (Subclass c) info wi = (Ok (st, info'), wl) /\
    trace wl =
      (LogDebug "process %r started pid=%s" [VStr name; VInt pid]
       :: Spawned args cwd env kw pid
       :: LogDebug "%s$ %s" [VStr cwd; VStr (join " " args)]
       :: escalation ++ Signalled (now wi) z SIGTERM :: trace wi)%list /\
    (escalation = [] \/ escalation = [Signalled (now wi + half) z SIGKILL]).
Proof.
  intros Hp Hz Ho Hr Hn Ea Hs.
  assert (pid_fits info) as Hfits
    by (intros z' E'; rewrite Hp in E'; injection E' as <-; now apply processes_Some in Ho).
  pose proof (launch_runs self name c l info wi Hfits Ea) as L. cbv zeta in L.
  rewrite Hs in L.
  destruct (terminate_attempt info wi z old Hp Hz Ho Hr) as (code & wt & E & _ & A).
  assert (after_stop info wi = wt) as S by (unfold after_stop; now rewrite Hp, E).
  rewrite S in L.
  assert (exists escalation,
            trace wt = (escalation ++ Signalled (now wi) z SIGTERM :: trace wi)%list /\
            (escalation = [] \/ escalation = [Signalled (now wi + half) z SIGKILL]))
    as (escalation & T & Hesc).
  { inversion A as [R|? T|? ? T|? ? T|? ? T]; [contradiction|..].
    - exists []. auto.
    - exists []. auto.
    - exists [Signalled (now wi + half) z SIGKILL]. auto.
    - exists [Signalled (now wi + half) z SIGKILL]. auto. }
  eexists _, _, _, _, _, _, _, escalation. split; [exact L|].
  fields. rewrite T. split; [reflexivity|exact Hesc].
Qed.

Lemma launch_terminates_first_witness :
  exists st info' wl,
    XProcess.launch supervisor "db" (Subclass ready_class)
      (info_of supervisor "db" (Some 4242))
      (World "linux" ["db"] {["db" := "4242"]} ∅ {[4242 := stubborn]} 0%Q
         [(4243, obedient)] [] ∅ [])
      = (Ok (st, info'), wl) /\
    trace wl =
      [LogDebug "process %r started pid=%s" [VStr "db"; VInt 4243];
       Spawned ["server"; "8080"] "/tmp/xprocess/db" None OwnProcessGroup 4243;
       LogDebug "%s$ %s" [VStr "/tmp/xprocess/db"; VStr "server 8080"];
       Signalled (0 + half) 4242 SIGKILL;
       Signalled 0 4242 SIGTERM].
Proof.
  destruct (launch_terminates_first supervisor "db" ready_class [VStr "server"; VInt 8080]
              (info_of supervisor "db" (Some 4242))
              (World "linux" ["db"] {["db" := "4242"]} ∅ {[4242 := stubborn]} 0%Q
                 [(4243, obedient)] [] ∅ [])
              4242 4243 stubborn obedient [])
    as (st & info' & wl & a & d & e & k & esc & E & _);
    try reflexivity; try discriminate.
  exists st, info', wl. split; [exact E|].
  vm_compute in E. injection E as _ _ <-. reflexivity.
Defined.

(* ===================================================================== *)
(** ** A pid file with a negative number *)
(* ===================================================================== *)

(** X21. With a pid file that holds a negative integer, [ensure] raises the
    [ValueError] with which [psutil.Process] refuses such a pid: without
    [restart] from the liveness check, with [restart] from the guard of
    [terminate].  Beyond creating the control directory it does nothing:
    the starter is not built, nothing is spawned, and log and pid file are
    as they were. *)
Theorem ensure_negative_pid (self : XProcess.t) (name : string) (p : preparefunc)
  (restart : bool) (w : world) (c : string) (z : Z) :
  pidfiles w !! name = Some c -> int c = Some z -> z < 0 ->
  XProcess.ensure self name p restart w
    = (Raise (ValueError "pid must be a positive integer"), touch name w).
Proof.
  intros Hc Hi Hz.
  assert (XProcess.getinfo self name w = (Ok (info_of self name (Some z)), touch name w)) as Hg
    by (now rewrite getinfo_spec, Hc, Hi).
  exact (ensure_refused self name p restart w _ _ z Hg eq_refl Hz).
Qed.

Lemma ensure_negative_pid_witness :
  XProcess.ensure supervisor "db" (Subclass ready_class) false
    (tracking "-1" {[4242 := obedient]} "")
  = (Raise (ValueError "pid must be a positive integer"),
     tracking "-1" {[4242 := obedient]} "") /\
  XProcess.ensure supervisor "db" (Subclass ready_class) true
    (tracking "-1" {[4242 := obedient]} "")
  = (Raise (ValueError "pid must be a positive integer"),
     tracking "-1" {[4242 := obedient]} "").
Proof.
  split.
  - exact (ensure_negative_pid supervisor "db" (Subclass ready_class) false
             (tracking "-1" {[4242 := obedient]} "") "-1" (-1) eq_refl eq_refl eq_refl).
  - exact (ensure_negative_pid supervisor "db" (Subclass ready_class) true
             (tracking "-1" {[4242 := obedient]} "") "-1" (-1) eq_refl eq_refl eq_refl).
Defined.
